(** * The LAYER table entry of ezdxf: a shallow embedding of
      [src/ezdxf/entities/layer.py] and the properties of its specification.

    Python integers are unbounded and are modelled by [Z]; strings are
    [string]; dictionaries keyed by strings are [gmap string _]; the entity
    database, whose iteration order is observable, is an association list.
    Code that can raise returns a [result]; code that mutates an object or
    the document threads that state explicitly, and the state survives an
    exception, as it does in Python.

    Part I holds the embedding, Part II the properties of the
    specification, Part III further properties of the code. *)

From Stdlib Require Import QArith Qround Ascii.
From stdpp Require Import gmap strings list numbers.

Local Open Scope Z_scope.

(** * Part I: the embedding *)

(** ** Exceptions and results *)

(** The exception classes that the modelled code can raise. *)
Inductive exn : Type :=
| ValueError
| DXFValueError
| IndexError
| TypeError
| AttributeError
| AssertionError.

Inductive result (A : Type) : Type :=
| Ok (a : A)
| Raise (e : exn).
Arguments Ok {A} a.
Arguments Raise {A} e.

Definition is_ok {A : Type} (r : result A) : bool :=
  match r with Ok _ => true | Raise _ => false end.

Definition bind_result {A B : Type} (r : result A) (k : A -> result B)
  : result B :=
  match r with Ok a => k a | Raise e => Raise e end.

(** A computation over a mutable state [S]: the final state is returned
    whether or not an exception is raised. *)
Definition M (S A : Type) : Type := S -> S * result A.

Definition ret {S A : Type} (a : A) : M S A := fun s => (s, Ok a).
Definition raise {S A : Type} (e : exn) : M S A := fun s => (s, Raise e).
Definition bind {S A B : Type} (m : M S A) (k : A -> M S B) : M S B :=
  fun s => match m s with
           | (s', Ok a) => k a s'
           | (s', Raise e) => (s', Raise e)
           end.

Declare Scope py_scope.
Delimit Scope py_scope with py.
Notation "x <- m ;; k" := (bind m (fun x => k))
  (at level 100, m at next level, right associativity) : py_scope.
Notation "m ;;; k" := (bind m (fun _ => k))
  (at level 100, right associativity) : py_scope.

(** ** Python floats

    Only comparisons with the integers 0 and 1 and the constant [0.0] occur
    in the modelled code, so a float is its exact value: a rational, an
    infinity or not-a-number. *)
Inductive pyfloat : Type :=
| Finite (q : Q)
| PosInf
| NegInf
| NaN.

(** Python's [a <= b] on floats: false as soon as one side is NaN. *)
Definition float_le (a b : pyfloat) : bool :=
  match a, b with
  | NaN, _ | _, NaN => false
  | NegInf, _ => true
  | _, PosInf => true
  | Finite p, Finite q => Qle_bool p q
  | _, _ => false
  end.

Definition float_of_Z (n : Z) : pyfloat := Finite (inject_Z n).

(** The mathematical order, stated as a proposition. *)
Definition Fle (a b : pyfloat) : Prop :=
  match a, b with
  | NaN, _ | _, NaN => False
  | NegInf, _ => True
  | _, PosInf => True
  | Finite p, Finite q => Qle p q
  | _, _ => False
  end.

(** [v] lies in the closed interval [0, 1]. *)
Definition in_unit_interval (v : pyfloat) : Prop :=
  Fle (float_of_Z 0) v /\ Fle v (float_of_Z 1).

(** ** Strings

    Python's [str.lower] is a parameter of the embedding (see [Imports]
    below).  [ascii_lower] folds the ASCII letters only and agrees with
    [str.lower] on ASCII strings; it serves to run the embedding on concrete
    ASCII inputs. *)

Definition lower_ascii (c : ascii) : ascii :=
  let n := nat_of_ascii c in
  if ((65 <=? n)%nat && (n <=? 90)%nat)%bool then ascii_of_nat (n + 32)
  else c.

Fixpoint ascii_lower (s : string) : string :=
  match s with
  | EmptyString => EmptyString
  | String c r => String (lower_ascii c) (ascii_lower r)
  end.

(** [c in s] for a character [c] and a string [s]. *)
Fixpoint char_in (c : ascii) (s : string) : bool :=
  match s with
  | EmptyString => false
  | String d r => bool_decide (c = d) || char_in c r
  end.

(** ** Names defined outside this file

    [layer.py] imports these from [ezdxf.lldxf.const], [ezdxf.lldxf.validator]
    and [ezdxf.colors]; their definitions are not part of the verified file,
    so the embedding is parameterised by them.  [lower] is Python's
    built-in [str.lower], which folds the case of every cased letter, not
    of the ASCII letters only. *)

Definition RGB : Type := Z * Z * Z.

Class Imports : Type := {
  lower : string -> string;
  DXF12 : string;
  SUBCLASS_MARKER : Z;
  LINEWEIGHT_BYBLOCK : Z;
  LINEWEIGHT_BYLAYER : Z;
  LINEWEIGHT_DEFAULT : Z;
  is_valid_lineweight : Z -> bool;
  fix_lineweight : Z -> Z;
  is_valid_rgb : RGB -> bool;
  transparency2float : Z -> pyfloat;
  float2transparency : pyfloat -> Z
}.

(** Modelled from the spec: [INVALID_NAME_CHARACTERS] of [ezdxf.lldxf.const]
    is not in the sources; the characters are the reserved illegal characters
    listed by the docstring of [Layer.rename]: < > / \ double-quote : ; ? *
    | = and the backquote. *)
Definition INVALID_NAME_CHARACTERS : string :=
  String "<"%char (String ">"%char (String "/"%char (String "\"%char
  (String "034"%char (String ":"%char (String ";"%char (String "?"%char
  (String "*"%char (String "|"%char (String "="%char (String "`"%char
  EmptyString))))))))))).

(** Modelled from the spec: [validator.is_valid_layer_name] is not in the
    sources; section 4.5 step 1 validates that the new name contains only
    legal characters, that is none of the reserved illegal ones. *)
Fixpoint is_valid_layer_name (name : string) : bool :=
  match name with
  | EmptyString => true
  | String c r => negb (char_in c INVALID_NAME_CHARACTERS)
                  && is_valid_layer_name r
  end.

(** Modelled from the spec: [int2rgb] of [ezdxf.colors] is not in the
    sources; the schema comment gives the layout of a true colour as the
    24 bit value 0x00RRGGBB. *)
Definition int2rgb (v : Z) : RGB :=
  (Z.land (Z.shiftr v 16) 255, Z.land (Z.shiftr v 8) 255, Z.land v 255).

(** ** Module level validators and fixers of [layer.py] *)

(** [is_valid_layer_color_index]: [(-256 < aci < 256) and aci != 0]. *)
Definition is_valid_layer_color_index (aci : Z) : bool :=
  ((-256 <? aci) && (aci <? 256)) && negb (aci =? 0).

(** [fix_layer_color]: [aci if is_valid_layer_color_index(aci) else 7]. *)
Definition fix_layer_color (aci : Z) : Z :=
  if is_valid_layer_color_index aci then aci else 7.

Definition is_valid_layer_lineweight `{Imports} (lw : Z) : bool :=
  if is_valid_lineweight lw then
    if negb (bool_decide (lw = LINEWEIGHT_BYLAYER)
             || bool_decide (lw = LINEWEIGHT_BYBLOCK))
    then true else false
  else false.

Definition fix_layer_lineweight `{Imports} (lw : Z) : Z :=
  if bool_decide (lw = LINEWEIGHT_BYLAYER)
     || bool_decide (lw = LINEWEIGHT_BYBLOCK)
  then LINEWEIGHT_DEFAULT
  else fix_lineweight lw.

Definition AcAecLayerStandard : string := "AcAecLayerStandard".
Definition AcCmTransparency : string := "AcCmTransparency".

(** ** Extended data

    [get_xdata], [discard_xdata] and [set_xdata] are inherited from
    [DXFEntity], which is not in the sources.  Section 4.4 of the
    specification describes extended data as a typed payload keyed by an
    application-id: a list of (code, value) entries per application-id. *)

Inductive xvalue : Type :=
| XInt (n : Z)
| XStr (s : string)
| XReal (x : pyfloat).

Record DXFTag : Type := mkTag { code : Z; value : xvalue }.

(** Modelled from the spec: [DXFEntity.get_xdata] is not in the sources; it
    returns the payload stored for the application-id and raises
    [DXFValueError] when there is none, the exception that the readers of
    [layer.py] catch for an absent payload. *)
Definition get_xdata (xd : gmap string (list DXFTag)) (appid : string)
  : result (list DXFTag) :=
  match xd !! appid with
  | Some tags => Ok tags
  | None => Raise DXFValueError
  end.

(** Modelled from the spec: [DXFEntity.discard_xdata] is not in the
    sources; it removes the payload of the application-id, if any. *)
Definition discard_xdata (xd : gmap string (list DXFTag)) (appid : string)
  : gmap string (list DXFTag) :=
  delete appid xd.

(** Modelled from the spec: [DXFEntity.set_xdata] is not in the sources; it
    stores the given entries as the payload of the application-id. *)
Definition set_xdata (xd : gmap string (list DXFTag)) (appid : string)
  (tags : list (Z * xvalue)) : gmap string (list DXFTag) :=
  <[appid := map (fun t => mkTag (fst t) (snd t)) tags]> xd.

(** ** Record tables

    The table classes are not in the sources.  Section 6 of the
    specification describes a record table as supporting case-insensitive
    name lookup, existence check, key replacement and insertion.  A table
    maps the key of a name to the handle of its entry. *)

(** Modelled from the spec: [doc.layers.key] is not in the sources; names
    are looked up case-insensitively, so the key of a name is its lower-case
    form as [str.lower] gives it. *)
Definition key `{Imports} (name : string) : string := lower name.

(** Modelled from the spec: [table.has_entry(name)] and [name in table] are
    not in the sources; the existence check by case-insensitive name. *)
Definition has_entry `{Imports} {V : Type} (table : gmap string V)
  (name : string) : bool :=
  bool_decide (is_Some (table !! key name)).

(** Modelled from the spec: [table.replace(old, entry)] is not in the
    sources; section 4.5 step 4: the key of the entry is updated from the
    old name to its current name. *)
Definition table_replace `{Imports} (table : gmap string string)
  (old : string) (entry_name entry : string) : gmap string string :=
  <[key entry_name := entry]> (delete (key old) table).

(** Modelled from the spec: [appids.new(name)] is not in the sources; the
    insertion of an application-id into the application-id table. *)
Definition appids_new `{Imports} (appids : gset string) (name : string)
  : gset string :=
  {[key name]} ∪ appids.

(** Modelled from the spec: [name in doc.appids] is not in the sources; the
    existence check of the application-id table. *)
Definition appids_contains `{Imports} (appids : gset string) (name : string)
  : bool :=
  bool_decide (key name ∈ appids).

(** ** The class [Layer] *)

Module Layer.

(** The attribute namespace [self.dxf] of a layer, restricted to the
    attributes its methods read or write, together with its extended data.
    [dxf_true_color] is [None] when the optional attribute is not set. *)
Record t : Type := mk {
  dxf_name : string;
  dxf_flags : Z;
  dxf_color : Z;
  dxf_true_color : option Z;
  dxf_linetype : string;
  dxf_lineweight : Z;
  xdata : gmap string (list DXFTag)
}.

Definition with_name (v : string) (self : t) : t :=
  mk v (dxf_flags self) (dxf_color self) (dxf_true_color self)
     (dxf_linetype self) (dxf_lineweight self) (xdata self).
Definition with_flags (v : Z) (self : t) : t :=
  mk (dxf_name self) v (dxf_color self) (dxf_true_color self)
     (dxf_linetype self) (dxf_lineweight self) (xdata self).
Definition with_color (v : Z) (self : t) : t :=
  mk (dxf_name self) (dxf_flags self) v (dxf_true_color self)
     (dxf_linetype self) (dxf_lineweight self) (xdata self).
Definition with_xdata (v : gmap string (list DXFTag)) (self : t) : t :=
  mk (dxf_name self) (dxf_flags self) (dxf_color self) (dxf_true_color self)
     (dxf_linetype self) (dxf_lineweight self) v.

Definition FROZEN : Z := 1.
Definition THAW : Z := 254.
Definition LOCK : Z := 4.
Definition UNLOCK : Z := 251.

Definition is_frozen (self : t) : bool :=
  0 <? Z.land (dxf_flags self) FROZEN.
Definition freeze (self : t) : t :=
  with_flags (Z.lor (dxf_flags self) FROZEN) self.
Definition thaw (self : t) : t :=
  with_flags (Z.land (dxf_flags self) THAW) self.
Definition is_locked (self : t) : bool :=
  0 <? Z.land (dxf_flags self) LOCK.
Definition lock (self : t) : t :=
  with_flags (Z.lor (dxf_flags self) LOCK) self.
Definition unlock (self : t) : t :=
  with_flags (Z.land (dxf_flags self) UNLOCK) self.

(** [is_off]: [self.dxf.color < 0]. *)
Definition is_off (self : t) : bool := dxf_color self <? 0.

(** [is_on]: [not self.is_off()]. *)
Definition is_on (self : t) : bool := negb (is_off self).

(** [on]: [self.dxf.color = abs(self.dxf.color)].  Here and in [off] and
    [set_color] the assignment is a plain store.  The attribute namespace,
    which is not in the sources, stores a value that the validator of the
    schema rejects as the fixer repairs it; the plain store is what the
    program does for every value that is a valid layer colour. *)
Definition on (self : t) : t := with_color (Z.abs (dxf_color self)) self.

(** [off]: [self.dxf.color = -abs(self.dxf.color)]. *)
Definition off (self : t) : t := with_color (- Z.abs (dxf_color self)) self.

(** [get_color]: [abs(self.dxf.color)]. *)
Definition get_color (self : t) : Z := Z.abs (dxf_color self).

(** [set_color]:
    [color = abs(color) if self.is_on() else -abs(color)]. *)
Definition set_color (color : Z) (self : t) : t :=
  let color := if is_on self then Z.abs color else - Z.abs color in
  with_color color self.

(** The property [rgb] (getter). *)
Definition rgb (self : t) : option RGB :=
  match dxf_true_color self with
  | Some v => Some (int2rgb v)
  | None => None
  end.

(** The property [color] (getter and setter). *)
Definition color (self : t) : Z := get_color self.
Definition color_set (value : Z) (self : t) : t := set_color value self.

(** The property [description] (getter): the second entry of the payload
    when there are at least two, the empty string otherwise. *)
Definition description (self : t) : result xvalue :=
  match get_xdata (xdata self) AcAecLayerStandard with
  | Raise DXFValueError => Ok (XStr "")
  | Raise e => Raise e
  | Ok xd =>
      if (1 <? Z.of_nat (length xd))
      then match xd !! 1%nat with
           | Some tag => Ok (value tag)
           | None => Raise IndexError
           end
      else Ok (XStr "")
  end.

Section WithImports.
Context `{Imports}.

(** The property [transparency] (getter).  [xdata[0]] raises [IndexError] on
    an empty payload, and [t & 0x2000000] raises [TypeError] when the value
    of the first entry is not an integer. *)
Definition transparency (self : t) : result pyfloat :=
  match get_xdata (xdata self) AcCmTransparency with
  | Raise DXFValueError => Ok (Finite 0)
  | Raise e => Raise e
  | Ok xd =>
      match xd !! 0%nat with
      | None => Raise IndexError
      | Some tag =>
          match value tag with
          | XInt t =>
              if negb (Z.land t 0x2000000 =? 0)
              then Ok (transparency2float t)
              else Ok (Finite 0)
          | _ => Raise TypeError
          end
      end
  end.

(** A layer together with the application-id table of its document;
    [doc_appids] is [None] for a layer that has no document. *)
Record bound : Type := mkBound {
  self : t;
  doc_appids : option (gset string)
}.

(** [if self.doc and appid not in self.doc.appids:
       self.doc.appids.new(appid)] *)
Definition register_appid (appid : string) (b : bound) : bound :=
  match doc_appids b with
  | Some appids =>
      if negb (appids_contains appids appid)
      then mkBound (self b) (Some (appids_new appids appid))
      else b
  | None => b
  end.

(** The property [description] (setter). *)
Definition description_set (value : string) : M bound unit :=
  fun b =>
    let b := register_appid AcAecLayerStandard b in
    let xd := discard_xdata (xdata (self b)) AcAecLayerStandard in
    let xd := set_xdata xd AcAecLayerStandard
                [(1000, XStr ""); (1000, XStr value)] in
    (mkBound (with_xdata xd (self b)) (doc_appids b), Ok tt).

(** The property [transparency] (setter). *)
Definition transparency_set (value : pyfloat) : M bound unit :=
  fun b =>
    let b := register_appid AcCmTransparency b in
    if float_le (float_of_Z 0) value && float_le value (float_of_Z 1)
    then
      let xd := discard_xdata (xdata (self b)) AcCmTransparency in
      let xd := set_xdata xd AcCmTransparency
                  [(1071, XInt (float2transparency value))] in
      (mkBound (with_xdata xd (self b)) (doc_appids b), Ok tt)
    else (b, Raise ValueError).

End WithImports.

End Layer.

(** ** Entities and the document *)

(** The part of a VIEWPORT entity that the layer code touches: its own
    [layer] attribute, when set, and its list of frozen layer names. *)
Record Viewport : Type := mkViewport {
  vp_layer : option string;
  frozen_layers : list string
}.

(** An entity of the entity database: a layer, a viewport, or an entity of
    any other type, of which only the type name and the [layer] attribute
    (when set) matter here.  A LAYER entity has no [layer] attribute. *)
Inductive DXFEntity : Type :=
| ELayer (l : Layer.t)
| EViewport (vp : Viewport)
| EOther (type_name : string) (layer : option string).

Definition dxftype (e : DXFEntity) : string :=
  match e with
  | ELayer _ => "LAYER"
  | EViewport _ => "VIEWPORT"
  | EOther type_name _ => type_name
  end.

(** The [layer] attribute of an entity: [None] models
    [e.dxf.hasattr("layer")] being false. *)
Definition dxf_layer (e : DXFEntity) : option string :=
  match e with
  | ELayer _ => None
  | EViewport vp => vp_layer vp
  | EOther _ layer => layer
  end.

(** [e.dxf.layer = name]. *)
Definition set_dxf_layer (name : string) (e : DXFEntity) : DXFEntity :=
  match e with
  | ELayer l => ELayer l
  | EViewport vp => EViewport (mkViewport (Some name) (frozen_layers vp))
  | EOther type_name _ => EOther type_name (Some name)
  end.

(** Modelled from the spec: [Viewport.rename_frozen_layer] is not in the
    sources; section 4.5 step 6 describes it as the rename hook of the
    viewport's separately stored list of frozen member-names.  An object
    that is not a viewport has no such method. *)
Definition rename_frozen_layer `{Imports} (old_name new_name : string)
  (e : DXFEntity) : result DXFEntity :=
  match e with
  | EViewport vp =>
      Ok (EViewport
            (mkViewport (vp_layer vp)
               (map (fun n => if bool_decide (key n = key old_name)
                              then new_name else n)
                    (frozen_layers vp))))
  | _ => Raise AttributeError
  end.

(** A debug record of the logger:
    [renaming layer "<old_name>" - document contains <what>]. *)
Inductive LogRecord : Type :=
| DebugRenaming (old_name : string) (what : string).

(** The document: the entity database in iteration order, the layer table
    (key to handle of the layer) and the keys of the linetype table. *)
Record Drawing : Type := mkDrawing {
  entitydb : list (string * DXFEntity);
  layers : gmap string string;
  linetypes : gset string
}.

(** [entitydb.get(handle)]. *)
Fixpoint edb_get (handle : string) (db : list (string * DXFEntity))
  : option DXFEntity :=
  match db with
  | [] => None
  | (h, e) :: rest => if bool_decide (h = handle) then Some e
                      else edb_get handle rest
  end.

(** The entity stored under [handle] is replaced: a mutation of the object
    that the database, the layer table and the caller share. *)
Fixpoint edb_set (handle : string) (e' : DXFEntity)
  (db : list (string * DXFEntity)) : list (string * DXFEntity) :=
  match db with
  | [] => []
  | (h, e) :: rest => if bool_decide (h = handle) then (h, e') :: rest
                      else (h, e) :: edb_set handle e' rest
  end.

(** The document and the records written to the logger. *)
Record World : Type := mkWorld {
  doc : Drawing;
  debug_log : list LogRecord
}.

(** ** Renaming a layer

    The methods [Layer.rename] and [Layer._rename_layer_references].  The
    layer [self] is an object shared by the entity database and the layer
    table; it is addressed by its handle in the database. *)

Module LayerDoc.

Section WithImports.
Context `{Imports}.

(** The body of the loop of [_rename_layer_references] for one entity: the
    entity after the iteration, the records logged, and whether the
    iteration raised. *)
Definition rename_references_in (old_name new_name : string) (e : DXFEntity)
  : DXFEntity * list LogRecord * result unit :=
  let old_key := key old_name in
  let e := match dxf_layer e with
           | Some l => if bool_decide (key l = old_key)
                       then set_dxf_layer new_name e else e
           | None => e
           end in
  let entity_type := dxftype e in
  if bool_decide (entity_type = "VIEWPORT") then
    match rename_frozen_layer old_name new_name e with
    | Ok e' => (e', [], Ok tt)
    | Raise x => (e, [], Raise x)
    end
  else if bool_decide (entity_type = "LAYER_FILTER") then
    (e, [DebugRenaming old_name "LAYER_FILTER"], Ok tt)
  else if bool_decide (entity_type = "LAYER_INDEX") then
    (e, [DebugRenaming old_name "LAYER_INDEX"], Ok tt)
  else (e, [], Ok tt).

(** [for e in self.doc.entitydb.values(): ...]: the entities are visited in
    order and mutated in place; an exception stops the loop and leaves the
    entities visited so far renamed. *)
Fixpoint rename_references_loop (old_name new_name : string)
  (db : list (string * DXFEntity))
  : list (string * DXFEntity) * list LogRecord * result unit :=
  match db with
  | [] => ([], [], Ok tt)
  | (h, e) :: rest =>
      match rename_references_in old_name new_name e with
      | (e', msgs, Ok _) =>
          match rename_references_loop old_name new_name rest with
          | (rest', msgs', r) => ((h, e') :: rest', msgs ++ msgs', r)
          end
      | (e', msgs, Raise x) => ((h, e') :: rest, msgs, Raise x)
      end
  end.

Definition _rename_layer_references (old_name new_name : string)
  : M World unit :=
  fun w =>
    match rename_references_loop old_name new_name (entitydb (doc w)) with
    | (db', msgs, r) =>
        (mkWorld (mkDrawing db' (layers (doc w)) (linetypes (doc w)))
                 (debug_log w ++ msgs), r)
    end.

(** [Layer.rename]; [self] is the handle of the layer.  A handle that does
    not lead to a layer of the document models a layer without a valid
    document, for which the assertion fails. *)
Definition rename (self : string) (name : string) : M World unit :=
  fun w =>
    if negb (is_valid_layer_name name) then (w, Raise ValueError)
    else
      match edb_get self (entitydb (doc w)) with
      | Some (ELayer l) =>
          let layers := layers (doc w) in
          if bool_decide (lower (Layer.dxf_name l) = "0")
             || bool_decide (lower (Layer.dxf_name l) = "defpoints")
          then (w, Raise ValueError)
          else if has_entry layers name then (w, Raise ValueError)
          else
            let old := Layer.dxf_name l in
            let db := edb_set self (ELayer (Layer.with_name name l))
                        (entitydb (doc w)) in
            let layers := table_replace layers old name self in
            _rename_layer_references old name
              (mkWorld (mkDrawing db layers (linetypes (doc w)))
                       (debug_log w))
      | _ => (w, Raise AssertionError)
      end.

End WithImports.

End LayerDoc.

(** ** Viewport overrides *)

Module OverrideAttributes.

Record t : Type := mk {
  aci : Z;
  rgb : option RGB;
  transparency : pyfloat;
  linetype : string;
  lineweight : Z;
  frozen : bool
}.

Definition with_aci (v : Z) (o : t) : t :=
  mk v (rgb o) (transparency o) (linetype o) (lineweight o) (frozen o).
Definition with_rgb (v : option RGB) (o : t) : t :=
  mk (aci o) v (transparency o) (linetype o) (lineweight o) (frozen o).
Definition with_transparency (v : pyfloat) (o : t) : t :=
  mk (aci o) (rgb o) v (linetype o) (lineweight o) (frozen o).
Definition with_linetype (v : string) (o : t) : t :=
  mk (aci o) (rgb o) (transparency o) v (lineweight o) (frozen o).
Definition with_lineweight (v : Z) (o : t) : t :=
  mk (aci o) (rgb o) (transparency o) (linetype o) v (frozen o).
Definition with_frozen (v : bool) (o : t) : t :=
  mk (aci o) (rgb o) (transparency o) (linetype o) (lineweight o) v.

End OverrideAttributes.

(** [is_layer_frozen_in_vp]: a handle that is not in the entity database
    gives [False]; an entity without a [frozen_layers] attribute raises. *)
Definition is_layer_frozen_in_vp (d : Drawing) (layer : Layer.t)
  (vp_handle : string) : result bool :=
  match edb_get vp_handle (entitydb d) with
  | Some (EViewport vp) =>
      Ok (bool_decide (Layer.dxf_name layer ∈ frozen_layers vp))
  | Some _ => Raise AttributeError
  | None => Ok false
  end.

(** [load_layer_overrides]: [dict()]. *)
Definition load_layer_overrides (layer : Layer.t)
  : gmap string OverrideAttributes.t := ∅.

(** [store_layer_overrides]: [pass]. *)
Definition store_layer_overrides (layer : Layer.t)
  (overrides : gmap string OverrideAttributes.t) : Layer.t := layer.

(** The class [ViewportOverrides].  The state of an instance is its
    dictionary [_overrides]; [self._layer] is a reference to the live layer,
    so every method takes the current state [layer] of that layer and the
    document [d] the layer belongs to. *)
Module ViewportOverrides.

Section Store.
Context `{Imports}.
Variable d : Drawing.
Variable layer : Layer.t.

Local Open Scope py_scope.

(** [__init__]: the dictionary returned by [load_layer_overrides]. *)
Definition init : gmap string OverrideAttributes.t :=
  load_layer_overrides layer.

Definition has_overrides (vp_handle : option string)
  (overrides : gmap string OverrideAttributes.t) : bool :=
  match vp_handle with
  | None => negb (bool_decide (overrides = ∅))
  | Some h => bool_decide (is_Some (overrides !! h))
  end.

(** [default_settings]: reading [layer.transparency] can raise. *)
Definition default_settings (frozen : bool) : result OverrideAttributes.t :=
  bind_result (Layer.transparency layer) (fun tr =>
    Ok (OverrideAttributes.mk (Layer.color layer) (Layer.rgb layer) tr
          (Layer.dxf_linetype layer) (Layer.dxf_lineweight layer) frozen)).

(** The default entry for a handle, as both accessors compute it:
    [self.default_settings(is_layer_frozen_in_vp(self._layer, vp_handle))]. *)
Definition default_for (vp_handle : string) : result OverrideAttributes.t :=
  bind_result (is_layer_frozen_in_vp d layer vp_handle) default_settings.

(** [commit]: [store_layer_overrides] does nothing. *)
Definition commit (overrides : gmap string OverrideAttributes.t) : Layer.t :=
  store_layer_overrides layer overrides.

(** [_acquire_overrides]: [dict.setdefault]; its default argument is
    evaluated before the lookup. *)
Definition _acquire_overrides (vp_handle : string)
  : M (gmap string OverrideAttributes.t) OverrideAttributes.t :=
  fun overrides =>
    match default_for vp_handle with
    | Raise e => (overrides, Raise e)
    | Ok dflt =>
        match overrides !! vp_handle with
        | Some o => (overrides, Ok o)
        | None => (<[vp_handle := dflt]> overrides, Ok dflt)
        end
    end.

(** [_get_overrides]: the stored entry, or on [KeyError] the default
    settings, which are returned and not stored. *)
Definition _get_overrides (vp_handle : string)
  : M (gmap string OverrideAttributes.t) OverrideAttributes.t :=
  fun overrides =>
    match overrides !! vp_handle with
    | Some o => (overrides, Ok o)
    | None => (overrides, default_for vp_handle)
    end.

(** An attribute assignment on the entry returned by [_acquire_overrides]:
    that object is the one stored in the dictionary. *)
Definition assign (vp_handle : string)
  (f : OverrideAttributes.t -> OverrideAttributes.t)
  : M (gmap string OverrideAttributes.t) unit :=
  fun overrides => (alter f vp_handle overrides, Ok tt).

Definition set_color (vp_handle : string) (value : Z)
  : M (gmap string OverrideAttributes.t) unit :=
  if negb (is_valid_layer_color_index value) then raise ValueError
  else _acquire_overrides vp_handle ;;;
       assign vp_handle (OverrideAttributes.with_aci value).

Definition get_color (vp_handle : string)
  : M (gmap string OverrideAttributes.t) Z :=
  vp_overrides <- _get_overrides vp_handle ;;
  ret (OverrideAttributes.aci vp_overrides).

Definition set_rgb (vp_handle : string) (value : option RGB)
  : M (gmap string OverrideAttributes.t) unit :=
  if match value with
     | Some v => negb (is_valid_rgb v)
     | None => false
     end
  then raise ValueError
  else _acquire_overrides vp_handle ;;;
       assign vp_handle (OverrideAttributes.with_rgb value).

Definition get_rgb (vp_handle : string)
  : M (gmap string OverrideAttributes.t) (option RGB) :=
  vp_overrides <- _get_overrides vp_handle ;;
  ret (OverrideAttributes.rgb vp_overrides).

Definition set_transparency (vp_handle : string) (value : pyfloat)
  : M (gmap string OverrideAttributes.t) unit :=
  if negb (float_le (float_of_Z 0) value && float_le value (float_of_Z 1))
  then raise ValueError
  else _acquire_overrides vp_handle ;;;
       assign vp_handle (OverrideAttributes.with_transparency value).

Definition get_transparency (vp_handle : string)
  : M (gmap string OverrideAttributes.t) pyfloat :=
  vp_overrides <- _get_overrides vp_handle ;;
  ret (OverrideAttributes.transparency vp_overrides).

Definition set_linetype (vp_handle : string) (value : string)
  : M (gmap string OverrideAttributes.t) unit :=
  if negb (bool_decide (key value ∈ linetypes d)) then raise ValueError
  else _acquire_overrides vp_handle ;;;
       assign vp_handle (OverrideAttributes.with_linetype value).

Definition get_linetype (vp_handle : string)
  : M (gmap string OverrideAttributes.t) string :=
  vp_overrides <- _get_overrides vp_handle ;;
  ret (OverrideAttributes.linetype vp_overrides).

Definition get_lineweight (vp_handle : string)
  : M (gmap string OverrideAttributes.t) Z :=
  vp_overrides <- _get_overrides vp_handle ;;
  ret (OverrideAttributes.lineweight vp_overrides).

Definition set_lineweight (vp_handle : string) (value : Z)
  : M (gmap string OverrideAttributes.t) unit :=
  if negb (is_valid_layer_lineweight value) then raise ValueError
  else _acquire_overrides vp_handle ;;;
       assign vp_handle (OverrideAttributes.with_lineweight value).

Definition is_frozen (vp_handle : string)
  : M (gmap string OverrideAttributes.t) bool :=
  vp_overrides <- _get_overrides vp_handle ;;
  ret (OverrideAttributes.frozen vp_overrides).

Definition freeze (vp_handle : string)
  : M (gmap string OverrideAttributes.t) unit :=
  _acquire_overrides vp_handle ;;;
  assign vp_handle (OverrideAttributes.with_frozen true).

Definition thaw (vp_handle : string)
  : M (gmap string OverrideAttributes.t) unit :=
  _acquire_overrides vp_handle ;;;
  assign vp_handle (OverrideAttributes.with_frozen false).

End Store.

End ViewportOverrides.

(** ** Export

    [Layer.export_entity].  The tag writer records what is written to it.
    The export of the base class and the export of the attribute namespace
    are not in the sources: each is recorded as one request, the second with
    the list of attribute names it is given. *)

Module LayerExport.

Inductive Emit : Type :=
| BaseEntity
| Tag2 (code : Z) (value : string)
| DxfAttribs (names : list string).

Record TagWriter : Type := mkTagWriter {
  dxfversion : string;
  written : list Emit
}.

Definition emit (x : Emit) (tagwriter : TagWriter) : TagWriter :=
  mkTagWriter (dxfversion tagwriter) (written tagwriter ++ [x]).

(** [tagwriter.write_tag2(code, value)]. *)
Definition write_tag2 (code : Z) (value : string) : TagWriter -> TagWriter :=
  emit (Tag2 code value).

(** [super().export_entity(tagwriter)]. *)
Definition super_export_entity : TagWriter -> TagWriter := emit BaseEntity.

(** [self.dxf.export_dxf_attribs(tagwriter, names)]. *)
Definition export_dxf_attribs (names : list string)
  : TagWriter -> TagWriter :=
  emit (DxfAttribs names).

(** The names of the two subclass definitions. *)
Definition acdb_symbol_table_record_name : string := "AcDbSymbolTableRecord".
Definition acdb_layer_table_record_name : string := "AcDbLayerTableRecord".

(** The list of attribute names passed by [export_entity]. *)
Definition exported_attribs : list string :=
  ["name"; "flags"; "color"; "true_color"; "linetype"; "plot";
   "lineweight"; "plotstyle_handle"; "material_handle"; "unknown1"].

(** Python compares the version strings with [>], the lexicographic order on
    strings. *)
Definition export_entity `{Imports} (self : Layer.t) (tagwriter : TagWriter)
  : TagWriter :=
  let tagwriter := super_export_entity tagwriter in
  let tagwriter :=
    if String.ltb DXF12 (dxfversion tagwriter)
    then write_tag2 SUBCLASS_MARKER acdb_layer_table_record_name
           (write_tag2 SUBCLASS_MARKER acdb_symbol_table_record_name
              tagwriter)
    else tagwriter in
  export_dxf_attribs exported_attribs tagwriter.

End LayerExport.

(** ** Specification vocabulary *)

(** The store [after] differs from [before] exactly by holding [entry] for
    [vp_handle]: the entries of all other handles are the same. *)
Definition materialized (before after : gmap string OverrideAttributes.t)
  (vp_handle : string) (entry : OverrideAttributes.t) : Prop :=
  after !! vp_handle = Some entry /\
  forall other : string, other <> vp_handle ->
    after !! other = before !! other.

(** What a rename from [old_name] to [new_name] makes of a [layer]
    attribute: a value equal to the old name up to case becomes the new
    name, any other value and an unset attribute stay. *)
Definition renamed_layer_attr `{Imports} (old_name new_name : string)
  (attr : option string) : option string :=
  match attr with
  | Some x => if bool_decide (key x = key old_name) then Some new_name
              else Some x
  | None => None
  end.

(** Two database entries with the same handle, where the second entity has
    the [layer] attribute of the first one after the rename. *)
Definition references_renamed `{Imports} (old_name new_name : string)
  (before after : string * DXFEntity) : Prop :=
  fst after = fst before /\
  dxf_layer (snd after)
  = renamed_layer_attr old_name new_name (dxf_layer (snd before)).

(** The entity factory builds every entity of type VIEWPORT as a viewport
    object. *)
Definition viewports_registered (db : list (string * DXFEntity)) : Prop :=
  forall h e, (h, e) ∈ db -> dxftype e = "VIEWPORT" ->
              exists vp, e = EViewport vp.

(** The debug records that a rename of [old_name] writes: one for every
    LAYER_FILTER and every LAYER_INDEX entity, in database order. *)
Definition rename_log (old_name : string) (db : list (string * DXFEntity))
  : list LogRecord :=
  flat_map
    (fun p =>
       if bool_decide (dxftype (snd p) = "LAYER_FILTER")
       then [DebugRenaming old_name "LAYER_FILTER"]
       else if bool_decide (dxftype (snd p) = "LAYER_INDEX")
            then [DebugRenaming old_name "LAYER_INDEX"]
            else [])
    db.

(** The entity after the first statement of the loop body of
    [_rename_layer_references]. *)
Definition after_attr `{Imports} (old_name new_name : string)
  (e : DXFEntity) : DXFEntity :=
  match dxf_layer e with
  | Some l => if bool_decide (key l = key old_name)
              then set_dxf_layer new_name e else e
  | None => e
  end.

(** Every payload that the layer holds for one of the two reserved
    application-ids has its application-id registered in the table of the
    document, when the layer has a document. *)
Definition payloads_registered `{Imports} (b : Layer.bound) : Prop :=
  forall ids appid,
    Layer.doc_appids b = Some ids ->
    appid = AcCmTransparency \/ appid = AcAecLayerStandard ->
    is_Some (Layer.xdata (Layer.self b) !! appid) ->
    key appid ∈ ids.

(** A call of one of the seven writers of [ViewportOverrides], with its
    argument. *)
Inductive WriteCall : Type :=
| SetColor (value : Z)
| SetRgb (value : option RGB)
| SetTransparency (value : pyfloat)
| SetLinetype (value : string)
| SetLineweight (value : Z)
| Freeze
| Thaw.

(** The writer that the call names, applied to its argument. *)
Definition run_write `{Imports} (d : Drawing) (layer : Layer.t)
  (vp_handle : string) (c : WriteCall)
  : M (gmap string OverrideAttributes.t) unit :=
  match c with
  | SetColor v => ViewportOverrides.set_color d layer vp_handle v
  | SetRgb v => ViewportOverrides.set_rgb d layer vp_handle v
  | SetTransparency v => ViewportOverrides.set_transparency d layer vp_handle v
  | SetLinetype v => ViewportOverrides.set_linetype d layer vp_handle v
  | SetLineweight v => ViewportOverrides.set_lineweight d layer vp_handle v
  | Freeze => ViewportOverrides.freeze d layer vp_handle
  | Thaw => ViewportOverrides.thaw d layer vp_handle
  end.

(** The argument of the call passes the validation of its writer. *)
Definition write_accepted `{Imports} (d : Drawing) (c : WriteCall) : bool :=
  match c with
  | SetColor v => is_valid_layer_color_index v
  | SetRgb (Some v) => is_valid_rgb v
  | SetRgb None => true
  | SetTransparency v =>
      float_le (float_of_Z 0) v && float_le v (float_of_Z 1)
  | SetLinetype v => bool_decide (key v ∈ linetypes d)
  | SetLineweight v => is_valid_layer_lineweight v
  | Freeze | Thaw => true
  end.

(** The attribute that the call assigns, as a change of an entry. *)
Definition write_update (c : WriteCall)
  : OverrideAttributes.t -> OverrideAttributes.t :=
  match c with
  | SetColor v => OverrideAttributes.with_aci v
  | SetRgb v => OverrideAttributes.with_rgb v
  | SetTransparency v => OverrideAttributes.with_transparency v
  | SetLinetype v => OverrideAttributes.with_linetype v
  | SetLineweight v => OverrideAttributes.with_lineweight v
  | Freeze => OverrideAttributes.with_frozen true
  | Thaw => OverrideAttributes.with_frozen false
  end.

(** Every entry of the store holds a valid layer colour and a valid layer
    lineweight. *)
Definition store_valid `{Imports}
  (overrides : gmap string OverrideAttributes.t) : Prop :=
  forall h o, overrides !! h = Some o ->
    is_valid_layer_color_index (OverrideAttributes.aci o) = true /\
    is_valid_layer_lineweight (OverrideAttributes.lineweight o) = true.

(** The layer table agrees with the layers: every entry of the table leads
    to a layer of the database whose name has the key of the entry. *)
Definition table_consistent `{Imports} (d : Drawing) : Prop :=
  forall k h, layers d !! k = Some h ->
    exists l, edb_get h (entitydb d) = Some (ELayer l) /\
              key (Layer.dxf_name l) = k.

(** What a rename from [a] to [b] followed by a rename back to [a] makes
    of a [layer] attribute: a value equal up to case to either name becomes
    [a], any other value and an unset attribute stay. *)
Definition renamed_there_and_back `{Imports} (a b : string)
  (attr : option string) : option string :=
  match attr with
  | Some x => if bool_decide (key x = key a) || bool_decide (key x = key b)
              then Some a else Some x
  | None => None
  end.

(** ** Concrete values

    One choice of values for the imported names, with which the embedding
    can be run on concrete inputs. *)

Definition sample_lineweights : list Z :=
  [0; 5; 9; 13; 15; 18; 20; 25; 30; 35; 40; 50; 53; 60; 70; 80; 90; 100;
   106; 120; 140; 158; 200; 211; -1; -2; -3].

Definition sample_imports : Imports := {|
  lower := ascii_lower;
  DXF12 := "AC1009";
  SUBCLASS_MARKER := 100;
  LINEWEIGHT_BYBLOCK := -2;
  LINEWEIGHT_BYLAYER := -1;
  LINEWEIGHT_DEFAULT := -3;
  is_valid_lineweight := fun lw => bool_decide (lw ∈ sample_lineweights);
  fix_lineweight := fun lw =>
    if bool_decide (lw ∈ sample_lineweights) then lw else -3;
  is_valid_rgb := fun '(r, g, b) =>
    (0 <=? r) && (r <? 256) && (0 <=? g) && (g <? 256)
    && (0 <=? b) && (b <? 256);
  transparency2float := fun t =>
    Finite (1 - inject_Z (Z.land t 255) / inject_Z 255)%Q;
  float2transparency := fun v =>
    match v with
    | Finite q => Z.lor (Qfloor ((1 - q) * inject_Z 255)%Q) 0x2000000
    | _ => 0x2000000
    end
|}.

(** A layer named WALLS, switched off, with colour index 5. *)
Definition walls : Layer.t :=
  Layer.mk "WALLS" 0 (-5) None "Continuous" (-3) ∅.

(** The layer WALLS with the application-id AcCmTransparency present and an
    empty payload, as [set_xdata("AcCmTransparency", [])] leaves it. *)
Definition walls_malformed : Layer.t :=
  Layer.mk "WALLS" 0 (-5) None "Continuous" (-3) {[ AcCmTransparency := [] ]}.

(** A document with the layers 0 and WALLS, a line and a viewport on WALLS
    (written in lower case by the line), a viewport in which WALLS is
    frozen, and a LAYER_FILTER and a LAYER_INDEX object. *)
Definition sample_db : list (string * DXFEntity) :=
  [("10", ELayer (Layer.mk "0" 0 7 None "Continuous" (-3) ∅));
   ("11", ELayer walls);
   ("20", EOther "LINE" (Some "walls"));
   ("21", EOther "CIRCLE" (Some "0"));
   ("22", EOther "LINE" None);
   ("30", EViewport (mkViewport (Some "WALLS") ["Walls"; "WALLS"; "0"]));
   ("40", EOther "LAYER_FILTER" None);
   ("41", EOther "LAYER_INDEX" None)].

Definition sample_doc : Drawing :=
  mkDrawing sample_db
    (<["0" := "10"]> (<["walls" := "11"]> ∅))
    {[ "continuous" ]}.

Definition sample_world : World := mkWorld sample_doc [].

(** An override entry, and a store that holds it for the handles 20 (a
    line) and 30 (a viewport). *)
Definition sample_entry : OverrideAttributes.t :=
  OverrideAttributes.mk 3 None (Finite 0) "Continuous" (-3) false.

Definition sample_store : gmap string OverrideAttributes.t :=
  <["20" := sample_entry]> (<["30" := sample_entry]> ∅).

(** The sample world after WALLS was renamed to WALL, and after WALLS was
    renamed to Defpoints. *)
Definition sample_renamed : World :=
  fst (LayerDoc.rename (H := sample_imports) "11" "WALL" sample_world).

Definition sample_defpoints : World :=
  fst (LayerDoc.rename (H := sample_imports) "11" "Defpoints" sample_world).

(** * Part II: properties *)

(** ** Colour validation and repair *)

Lemma is_valid_layer_color_index_spec (aci : Z) :
  is_valid_layer_color_index aci = true <-> 1 <= Z.abs aci <= 255.
Proof.
  unfold is_valid_layer_color_index.
  rewrite !andb_true_iff, negb_true_iff, !Z.ltb_lt, Z.eqb_neq. lia.
Qed.

Lemma is_valid_layer_color_index_false (aci : Z) :
  is_valid_layer_color_index aci = false <-> ~ (1 <= Z.abs aci <= 255).
Proof.
  rewrite <- is_valid_layer_color_index_spec.
  destruct (is_valid_layer_color_index aci); split; intros; congruence.
Qed.

(** C6: the validator accepts exactly the colours of magnitude 1..255 (so 0,
    256 and 257 are rejected), the fixer is the identity on valid colours and
    returns 7 otherwise, and the fixer's output always passes the validator. *)
Theorem layer_color_validation_and_repair :
  (forall aci : Z,
      is_valid_layer_color_index aci = true <-> 1 <= Z.abs aci <= 255) /\
  is_valid_layer_color_index 0 = false /\
  is_valid_layer_color_index 256 = false /\
  is_valid_layer_color_index 257 = false /\
  (forall aci : Z,
      fix_layer_color aci
      = if is_valid_layer_color_index aci then aci else 7) /\
  (forall aci : Z, 1 <= Z.abs aci <= 255 -> fix_layer_color aci = aci) /\
  (forall aci : Z, ~ (1 <= Z.abs aci <= 255) -> fix_layer_color aci = 7) /\
  (forall v : Z, is_valid_layer_color_index (fix_layer_color v) = true).
Proof.
  split; [exact is_valid_layer_color_index_spec |].
  do 4 (split; [reflexivity |]).
  split; [| split].
  - intros aci H. apply is_valid_layer_color_index_spec in H.
    unfold fix_layer_color. now rewrite H.
  - intros aci H. apply is_valid_layer_color_index_false in H.
    unfold fix_layer_color. now rewrite H.
  - intros v. unfold fix_layer_color.
    destruct (is_valid_layer_color_index v) eqn:E; [exact E | reflexivity].
Qed.

(** ** Colour and visibility *)

Section ColorVisibility.
Import Layer.

Lemma on_magnitude (l : Layer.t) :
  Z.abs (dxf_color (on l)) = Z.abs (dxf_color l).
Proof. unfold on; simpl. lia. Qed.

Lemma off_magnitude (l : Layer.t) :
  Z.abs (dxf_color (off l)) = Z.abs (dxf_color l).
Proof. unfold off; simpl. rewrite Z.abs_opp. lia. Qed.

Lemma set_color_stored (m : Z) (l : Layer.t) :
  dxf_color (set_color m l) = if is_on l then Z.abs m else - Z.abs m.
Proof. reflexivity. Qed.

(** [set_color] keeps the visibility for every colour other than 0. *)
Lemma set_color_keeps_visibility (m : Z) (l : Layer.t) :
  m <> 0 -> is_off (set_color m l) = is_off l.
Proof.
  intros Hm. unfold is_off at 1. rewrite set_color_stored.
  unfold is_on. destruct (is_off l) eqn:E; simpl; lia.
Qed.

(** The colour stored by [set_color] for a magnitude in 1..255 is a valid
    layer colour, so a namespace that validates on assignment stores it as
    it is. *)
Lemma set_color_stores_valid (m : Z) (l : Layer.t) :
  1 <= m <= 255 ->
  is_valid_layer_color_index (dxf_color (set_color m l)) = true.
Proof.
  intros Hm. rewrite set_color_stored, is_valid_layer_color_index_spec.
  destruct (is_on l); lia.
Qed.

(** C1: for a magnitude m in 1..255, [set_color m] followed by [on] or
    [off] reads back m; [on] and [off] keep the magnitude of the stored
    colour; and [set_color m] keeps the visibility ([is_on] and [is_off]). *)
Theorem color_sign_magnitude_independence (l : Layer.t) (m : Z) :
  1 <= m <= 255 ->
  get_color (on (set_color m l)) = m /\
  get_color (off (set_color m l)) = m /\
  get_color (set_color m l) = m /\
  Z.abs (dxf_color (on l)) = Z.abs (dxf_color l) /\
  Z.abs (dxf_color (off l)) = Z.abs (dxf_color l) /\
  get_color (on l) = get_color l /\
  get_color (off l) = get_color l /\
  is_on (set_color m l) = is_on l /\
  is_off (set_color m l) = is_off l.
Proof.
  intros Hm.
  assert (Hoff : is_off (set_color m l) = is_off l)
    by (apply set_color_keeps_visibility; lia).
  assert (Hget : get_color (set_color m l) = m).
  { unfold get_color. rewrite set_color_stored. destruct (is_on l); lia. }
  repeat split.
  - unfold get_color in *. now rewrite on_magnitude.
  - unfold get_color in *. now rewrite off_magnitude.
  - exact Hget.
  - apply on_magnitude.
  - apply off_magnitude.
  - apply on_magnitude.
  - apply off_magnitude.
  - unfold is_on. now rewrite Hoff.
  - exact Hoff.
Qed.

End ColorVisibility.

(** The scenario of the specification: WALLS has colour -5; it is off, its
    colour reads 5, and [set_color 12] stores -12. *)
Lemma color_sign_magnitude_independence_witness :
  1 <= 12 <= 255 /\
  Layer.is_on walls = false /\
  Layer.get_color walls = 5 /\
  Layer.dxf_color (Layer.set_color 12 walls) = -12 /\
  Layer.get_color (Layer.on (Layer.set_color 12 walls)) = 12 /\
  Layer.is_off (Layer.set_color 12 walls) = Layer.is_off walls.
Proof.
  pose proof (color_sign_magnitude_independence walls 12 ltac:(lia)) as H.
  split; [lia |].
  do 3 (split; [reflexivity |]).
  split; [apply H | apply H].
Defined.

(** ** Export: subclass markers and attribute order *)

Section ExportProperties.
Context `{Imports}.
Import LayerExport.

Lemma export_entity_written (self : Layer.t) (tw : TagWriter) :
  written (export_entity self tw)
  = written tw ++ [BaseEntity]
    ++ (if String.ltb DXF12 (dxfversion tw)
        then [Tag2 SUBCLASS_MARKER acdb_symbol_table_record_name;
              Tag2 SUBCLASS_MARKER acdb_layer_table_record_name]
        else [])
    ++ [DxfAttribs exported_attribs].
Proof.
  unfold export_entity, export_dxf_attribs, write_tag2, super_export_entity,
    emit; simpl.
  destruct (String.ltb DXF12 (dxfversion tw)); simpl;
    rewrite <- ?app_assoc; reflexivity.
Qed.

(** C7: what [export_entity] adds to the output.  When the target version is
    newer than DXF12 it is the base-class export, the subclass marker
    AcDbSymbolTableRecord, the subclass marker AcDbLayerTableRecord and then
    the request for the attributes; otherwise it is the base-class export
    followed at once by the request for the attributes, with no marker.  In
    both cases the attributes are requested once, in the order name, flags,
    color, true_color, linetype, plot, lineweight, plotstyle_handle,
    material_handle, unknown1, and the version of the writer is unchanged. *)
Theorem subclass_markers_version_gated (self : Layer.t) (tw : TagWriter) :
  exists added : list Emit,
    written (export_entity self tw) = written tw ++ added /\
    dxfversion (export_entity self tw) = dxfversion tw /\
    (String.ltb DXF12 (dxfversion tw) = true ->
       added = [BaseEntity;
                Tag2 SUBCLASS_MARKER "AcDbSymbolTableRecord";
                Tag2 SUBCLASS_MARKER "AcDbLayerTableRecord";
                DxfAttribs ["name"; "flags"; "color"; "true_color";
                            "linetype"; "plot"; "lineweight";
                            "plotstyle_handle"; "material_handle";
                            "unknown1"]]) /\
    (String.ltb DXF12 (dxfversion tw) = false ->
       added = [BaseEntity;
                DxfAttribs ["name"; "flags"; "color"; "true_color";
                            "linetype"; "plot"; "lineweight";
                            "plotstyle_handle"; "material_handle";
                            "unknown1"]]) /\
    ((exists name, Tag2 SUBCLASS_MARKER name ∈ added)
       <-> String.ltb DXF12 (dxfversion tw) = true).
Proof.
  eexists. split; [apply export_entity_written |].
  split.
  { unfold export_entity, export_dxf_attribs, write_tag2,
      super_export_entity, emit; simpl.
    destruct (String.ltb DXF12 (dxfversion tw)); reflexivity. }
  destruct (String.ltb DXF12 (dxfversion tw)) eqn:E; simpl.
  - split; [reflexivity |]. split; [discriminate |].
    split; [reflexivity |]. intros _.
    exists acdb_symbol_table_record_name. set_solver.
  - split; [discriminate |]. split; [reflexivity |].
    split; [| discriminate].
    intros [name Hin].
    apply elem_of_cons in Hin as [Hin | Hin]; [discriminate |].
    apply elem_of_cons in Hin as [Hin | Hin]; [discriminate |].
    inversion Hin.
Qed.

End ExportProperties.

(** ** Transparency *)

Lemma float_le_Fle (a b : pyfloat) : float_le a b = true <-> Fle a b.
Proof.
  destruct a, b; simpl; try (split; intros; easy).
  apply Qle_bool_iff.
Qed.

Lemma in_unit_interval_test (v : pyfloat) :
  float_le (float_of_Z 0) v && float_le v (float_of_Z 1) = true
  <-> in_unit_interval v.
Proof.
  unfold in_unit_interval. rewrite andb_true_iff, !float_le_Fle. tauto.
Qed.

Lemma in_unit_interval_test_false (v : pyfloat) :
  float_le (float_of_Z 0) v && float_le v (float_of_Z 1) = false
  <-> ~ in_unit_interval v.
Proof.
  rewrite <- in_unit_interval_test.
  destruct (float_le (float_of_Z 0) v && float_le v (float_of_Z 1));
    split; intros; congruence.
Qed.

(** The reader of the description never raises: a payload with fewer than
    two entries, the empty one included, reads as the empty string. *)
Lemma description_short_payload (l : Layer.t) (xd : list DXFTag) :
  Layer.xdata l !! AcAecLayerStandard = Some xd ->
  (length xd <= 1)%nat ->
  Layer.description l = Ok (XStr "").
Proof.
  intros E Hlen. unfold Layer.description, get_xdata. rewrite E.
  destruct (1 <? Z.of_nat (length xd)) eqn:Hlt; [| reflexivity].
  apply Z.ltb_lt in Hlt. lia.
Qed.

Lemma description_returns (l : Layer.t) : is_ok (Layer.description l) = true.
Proof.
  unfold Layer.description, get_xdata.
  destruct (Layer.xdata l !! AcAecLayerStandard) as [xd |]; [| reflexivity].
  destruct (1 <? Z.of_nat (length xd)) eqn:Hlt; [| reflexivity].
  apply Z.ltb_lt in Hlt.
  destruct (lookup_lt_is_Some_2 xd 1%nat ltac:(lia)) as [tag ->].
  reflexivity.
Qed.

Section TransparencyProperties.
Context `{Imports}.
Import Layer.

(** Registering the application-id touches the table only: it adds the key
    of the application-id, and nothing when there is no document. *)
Lemma register_appid_spec (appid : string) (b : bound) :
  self (register_appid appid b) = self b /\
  doc_appids (register_appid appid b)
  = (fun ids => {[key appid]} ∪ ids) <$> doc_appids b.
Proof.
  unfold register_appid, appids_contains, appids_new.
  destruct (doc_appids b) as [ids |] eqn:E; simpl; [| now rewrite E].
  case_bool_decide; simpl.
  - rewrite E; simpl. split; [reflexivity |]. f_equal.
    apply leibniz_equiv. intros x. rewrite elem_of_union, elem_of_singleton.
    split; [auto | intros [-> | ?]; auto].
  - split; reflexivity.
Qed.

Lemma register_appid_id (appid : string) (b : bound) :
  match doc_appids b with
  | Some ids => key appid ∈ ids
  | None => True
  end ->
  register_appid appid b = b.
Proof.
  unfold register_appid, appids_contains.
  destruct (doc_appids b) as [ids |]; [| reflexivity].
  intros Hin. now rewrite bool_decide_eq_true_2.
Qed.

(** The reader returns 0.0 when the payload is absent. *)
Lemma transparency_absent (l : Layer.t) :
  xdata l !! AcCmTransparency = None -> transparency l = Ok (Finite 0).
Proof. intros E. unfold transparency, get_xdata. now rewrite E. Qed.

(** The reader returns 0.0 when the first entry is an integer without the
    flag 0x2000000, whatever its other bits. *)
Lemma transparency_flag_unset (l : Layer.t) (t : Z) (c : Z)
  (rest : list DXFTag) :
  xdata l !! AcCmTransparency = Some (mkTag c (XInt t) :: rest) ->
  Z.land t 0x2000000 = 0 ->
  transparency l = Ok (Finite 0).
Proof.
  intros E Hflag. unfold transparency, get_xdata. rewrite E; simpl.
  now rewrite Hflag.
Qed.

(** The by-block value 0x1000000 reads back as 0.0. *)
Lemma transparency_byblock (l : Layer.t) (c : Z) (rest : list DXFTag) :
  xdata l !! AcCmTransparency = Some (mkTag c (XInt 0x1000000) :: rest) ->
  transparency l = Ok (Finite 0).
Proof.
  intros E. now apply (transparency_flag_unset l 0x1000000 c rest E).
Qed.

(** The reader returns a value exactly when the payload is absent or
    starts with an integer entry. *)
Lemma transparency_returns_iff (l : Layer.t) :
  is_ok (transparency l) = true <->
  (xdata l !! AcCmTransparency = None \/
   exists c t rest,
     xdata l !! AcCmTransparency = Some (mkTag c (XInt t) :: rest)).
Proof.
  unfold transparency, get_xdata.
  destruct (xdata l !! AcCmTransparency) as [[| [c v] rest] |] eqn:E; simpl.
  - split; [discriminate |]. intros [? | (? & ? & ? & ?)]; discriminate.
  - destruct v as [t | s | x]; simpl.
    + destruct (Z.land t 0x2000000 =? 0); simpl;
        (split; [intros _; right; eauto | reflexivity]).
    + split; [discriminate |].
      intros [? | (? & ? & ? & ?)]; discriminate.
    + split; [discriminate |].
      intros [? | (? & ? & ? & ?)]; discriminate.
  - split; [intros _; now left | reflexivity].
Qed.

(** C5: a layer whose extended data holds the application-id
    AcCmTransparency with an empty payload: reading its transparency raises
    [IndexError], where the claim says that reading never raises.  A payload
    whose first entry is a string raises [TypeError]. *)
Theorem transparency_reader_raises :
  transparency
    (mk "WALLS" 0 7 None "Continuous" (-3) {[ AcCmTransparency := [] ]})
  = Raise IndexError /\
  transparency
    (mk "WALLS" 0 7 None "Continuous" (-3)
        {[ AcCmTransparency := [mkTag 1000 (XStr "50%")] ]})
  = Raise TypeError.
Proof. split; reflexivity. Qed.

(** What the setter does to the layer and to the application-id table. *)
Lemma transparency_set_spec (v : pyfloat) (b : bound) :
  transparency_set v b
  = if float_le (float_of_Z 0) v && float_le v (float_of_Z 1)
    then (mkBound
            (with_xdata
               (<[AcCmTransparency :=
                    [mkTag 1071 (XInt (float2transparency v))]]>
                  (xdata (self b)))
               (self b))
            ((fun ids => {[key AcCmTransparency]} ∪ ids) <$> doc_appids b),
          Ok tt)
    else (mkBound (self b)
            ((fun ids => {[key AcCmTransparency]} ∪ ids) <$> doc_appids b),
          Raise ValueError).
Proof.
  unfold transparency_set.
  destruct (register_appid_spec AcCmTransparency b) as [Hs Ha].
  destruct (float_le (float_of_Z 0) v && float_le v (float_of_Z 1)).
  - rewrite Hs, Ha. unfold set_xdata, discard_xdata; simpl.
    now rewrite insert_delete_eq.
  - rewrite <- Hs, <- Ha. now destruct (register_appid AcCmTransparency b).
Qed.

End TransparencyProperties.

Section TransparencySetter.
Context `{Imports}.
Import Layer.

(** C4, as the code has it: the setter raises exactly when the value is
    outside [0, 1].  The application-id is registered before the range is
    checked, so on failure the layer, its extended data included, is
    unchanged, while the application-id table of the document gains the
    reserved application-id when it was absent; nothing at all changes on
    failure when the layer has no document or the application-id is already
    registered.  On success the payload of the reserved application-id is
    the single new entry, whatever it was before, and the rest of the layer
    is unchanged. *)
Theorem transparency_setter_validation (v : pyfloat) (b : bound) :
  let r := transparency_set v b in
  (snd r = Raise ValueError <-> ~ in_unit_interval v) /\
  (snd r = Ok tt <-> in_unit_interval v) /\
  doc_appids (fst r)
  = (fun ids => {[key AcCmTransparency]} ∪ ids) <$> doc_appids b /\
  (~ in_unit_interval v -> self (fst r) = self b) /\
  (~ in_unit_interval v ->
   match doc_appids b with
   | Some ids => key AcCmTransparency ∈ ids
   | None => True
   end ->
   fst r = b) /\
  (in_unit_interval v ->
   xdata (self (fst r)) !! AcCmTransparency
   = Some [mkTag 1071 (XInt (float2transparency v))] /\
   (forall appid, appid <> AcCmTransparency ->
      xdata (self (fst r)) !! appid = xdata (self b) !! appid) /\
   with_xdata (xdata (self b)) (self (fst r)) = self b).
Proof.
  cbv zeta.
  pose proof (in_unit_interval_test v) as Hin.
  pose proof (in_unit_interval_test_false v) as Hout.
  split; [| split; [| split; [| split; [| split]]]].
  - rewrite transparency_set_spec.
    destruct (float_le (float_of_Z 0) v && float_le v (float_of_Z 1));
      simpl.
    + split; [discriminate |]. intros Hn. exfalso. now apply Hn, Hin.
    + split; [intros _; now apply Hout | reflexivity].
  - rewrite transparency_set_spec.
    destruct (float_le (float_of_Z 0) v && float_le v (float_of_Z 1));
      simpl.
    + split; [intros _; now apply Hin | reflexivity].
    + split; [discriminate |]. intros Hv. now apply Hout in Hv.
  - rewrite transparency_set_spec.
    now destruct (float_le (float_of_Z 0) v && float_le v (float_of_Z 1)).
  - intros Hv. apply Hout in Hv. rewrite transparency_set_spec, Hv.
    reflexivity.
  - intros Hv Hreg. apply Hout in Hv. unfold transparency_set.
    rewrite (register_appid_id _ _ Hreg), Hv. reflexivity.
  - intros Hv. apply Hin in Hv. rewrite transparency_set_spec, Hv; simpl.
    split; [apply lookup_insert_eq |].
    split; [intros appid Hne; now apply lookup_insert_ne |].
    now destruct (self b).
Qed.

End TransparencySetter.

(** C4, as the claim states it, fails: in a document whose application-id
    table is empty, setting the transparency of WALLS to 2.0 raises
    [ValueError] and leaves the application-id registered in the table. *)
Lemma transparency_setter_failure_registers_appid :
  snd (Layer.transparency_set (H := sample_imports) (Finite 2)
         (Layer.mkBound walls (Some ∅)))
  = Raise ValueError /\
  Layer.doc_appids
    (fst (Layer.transparency_set (H := sample_imports) (Finite 2)
            (Layer.mkBound walls (Some ∅))))
  = Some {[ "accmtransparency" ]} /\
  fst (Layer.transparency_set (H := sample_imports) (Finite 2)
         (Layer.mkBound walls (Some ∅)))
  <> Layer.mkBound walls (Some ∅).
Proof.
  assert (E : Layer.transparency_set (H := sample_imports) (Finite 2)
                (Layer.mkBound walls (Some ∅))
              = (Layer.mkBound walls (Some {[ "accmtransparency" ]}),
                 Raise ValueError)).
  { rewrite transparency_set_spec.
    change (float_le (float_of_Z 0) (Finite 2)
            && float_le (Finite 2) (float_of_Z 1)) with false.
    cbv iota. do 2 f_equal. }
  rewrite E. simpl.
  split; [reflexivity |]. split; [reflexivity |].
  intros Heq. inversion Heq.
Qed.

(** ** Viewport overrides *)

Section OverrideProperties.
Context `{Imports}.
Variable d : Drawing.
Variable layer : Layer.t.
Import ViewportOverrides.

(** The default entry of a handle, when the settings of the layer can be
    read: the colour, true colour, transparency, linetype and lineweight of
    the layer now, and the frozen flag found in the viewport now. *)
Lemma default_for_ok (h : string) (t : pyfloat) (fr : bool) :
  Layer.transparency layer = Ok t ->
  is_layer_frozen_in_vp d layer h = Ok fr ->
  default_for d layer h
  = Ok (OverrideAttributes.mk (Layer.get_color layer) (Layer.rgb layer) t
          (Layer.dxf_linetype layer) (Layer.dxf_lineweight layer) fr).
Proof.
  intros Ht Hfr. unfold default_for, default_settings.
  rewrite Hfr; simpl. rewrite Ht; reflexivity.
Qed.

(** Reading an attribute of a handle without entry returns the attribute of
    the default entry and leaves the store as it is. *)
Lemma read_unmaterialized {A : Type} (f : OverrideAttributes.t -> A)
  (ov : gmap string OverrideAttributes.t) (h : string)
  (dflt : OverrideAttributes.t) :
  ov !! h = None ->
  default_for d layer h = Ok dflt ->
  bind (_get_overrides d layer h) (fun o => ret (f o)) ov = (ov, Ok (f dflt)).
Proof.
  intros Hnone Hd. unfold bind, _get_overrides. rewrite Hnone, Hd.
  reflexivity.
Qed.

(** Writing an attribute of a handle without entry stores the default entry
    with that attribute changed. *)
Lemma write_unmaterialized (f : OverrideAttributes.t -> OverrideAttributes.t)
  (ov : gmap string OverrideAttributes.t) (h : string)
  (dflt : OverrideAttributes.t) :
  ov !! h = None ->
  default_for d layer h = Ok dflt ->
  bind (_acquire_overrides d layer h) (fun _ => assign h f) ov
  = (<[h := f dflt]> ov, Ok tt).
Proof.
  intros Hnone Hd. unfold bind, _acquire_overrides, assign.
  rewrite Hd, Hnone. now rewrite alter_insert_eq.
Qed.

Lemma materialized_insert (ov : gmap string OverrideAttributes.t)
  (h : string) (e : OverrideAttributes.t) :
  materialized ov (<[h := e]> ov) h e.
Proof.
  split; [apply lookup_insert_eq |].
  intros other Hne. now apply lookup_insert_ne.
Qed.

(** Default derivation for a layer whose transparency can be read: for a
    handle without stored entry that leads to a viewport, [is_frozen] is the
    membership of the layer's name in the frozen layers of that viewport as
    the document has them now, and [get_color] is the current colour of the
    layer, its magnitude; neither call changes the store. *)
Theorem override_default_derivation
  (ov : gmap string OverrideAttributes.t) (h : string) (vp : Viewport)
  (t : pyfloat) :
  ov !! h = None ->
  edb_get h (entitydb d) = Some (EViewport vp) ->
  Layer.transparency layer = Ok t ->
  is_frozen d layer h ov
  = (ov, Ok (bool_decide (Layer.dxf_name layer ∈ frozen_layers vp))) /\
  get_color d layer h ov = (ov, Ok (Layer.get_color layer)) /\
  get_color d layer h ov = (ov, Ok (Z.abs (Layer.dxf_color layer))).
Proof.
  intros Hnone Hvp Ht.
  assert (Hfr : is_layer_frozen_in_vp d layer h
                = Ok (bool_decide (Layer.dxf_name layer ∈ frozen_layers vp)))
    by (unfold is_layer_frozen_in_vp; now rewrite Hvp).
  pose proof (default_for_ok h t _ Ht Hfr) as Hd.
  split; [| split].
  - unfold is_frozen. now rewrite (read_unmaterialized _ ov h _ Hnone Hd).
  - unfold get_color. now rewrite (read_unmaterialized _ ov h _ Hnone Hd).
  - unfold get_color. now rewrite (read_unmaterialized _ ov h _ Hnone Hd).
Qed.

(** A handle that is not in the entity database: the layer is reported as
    not frozen, without an exception, for every layer; [is_frozen] of the
    override store returns [False] for such a handle without entry when the
    transparency of the layer can be read. *)
Theorem dangling_viewport_handle_not_frozen (h : string) :
  edb_get h (entitydb d) = None ->
  is_layer_frozen_in_vp d layer h = Ok false /\
  forall (ov : gmap string OverrideAttributes.t) (t : pyfloat),
    ov !! h = None ->
    Layer.transparency layer = Ok t ->
    is_frozen d layer h ov = (ov, Ok false).
Proof.
  intros Hnone.
  assert (Hfr : is_layer_frozen_in_vp d layer h = Ok false)
    by (unfold is_layer_frozen_in_vp; now rewrite Hnone).
  split; [exact Hfr |].
  intros ov t Hov Ht.
  pose proof (default_for_ok h t _ Ht Hfr) as Hd.
  unfold is_frozen. now rewrite (read_unmaterialized _ ov h _ Hov Hd).
Qed.

End OverrideProperties.

Section OverrideMaterialization.
Context `{Imports}.
Variable d : Drawing.
Variable layer : Layer.t.
Import ViewportOverrides.

Ltac read_default Hnone Hd :=
  unfold get_color, get_rgb, get_transparency, get_linetype, get_lineweight,
    is_frozen;
  now rewrite (read_unmaterialized d layer _ _ _ _ Hnone Hd).

Ltac write_default Hnone Hd :=
  match goal with
  | |- _ = (<[?h := _]> ?ov, _) =>
      now rewrite (write_unmaterialized d layer _ ov h _ Hnone Hd)
  end.

(** C9, as the code has it.  Let [h] be a handle without entry, and let the
    default settings be readable: reading the transparency of the layer
    returns [t], and reading the frozen flag for [h] returns [fr], which it
    does when [h] leads to a viewport or to no entity.  The default entry is
    the current settings of the layer with the frozen flag [fr].  Every read
    returns the attribute of the default entry and creates no entry: the
    store is unchanged.  Every write that passes its validation creates the
    entry of [h], equal to the default entry with the written attribute, and
    keeps the entries of all other handles; a write that fails its
    validation leaves the store unchanged. *)
Theorem override_materialization
  (ov : gmap string OverrideAttributes.t) (h : string) (t : pyfloat)
  (fr : bool) :
  ov !! h = None ->
  Layer.transparency layer = Ok t ->
  is_layer_frozen_in_vp d layer h = Ok fr ->
  let dflt :=
    OverrideAttributes.mk (Layer.get_color layer) (Layer.rgb layer) t
      (Layer.dxf_linetype layer) (Layer.dxf_lineweight layer) fr in
  (get_color d layer h ov = (ov, Ok (Layer.get_color layer)) /\
   get_rgb d layer h ov = (ov, Ok (Layer.rgb layer)) /\
   get_transparency d layer h ov = (ov, Ok t) /\
   get_linetype d layer h ov = (ov, Ok (Layer.dxf_linetype layer)) /\
   get_lineweight d layer h ov = (ov, Ok (Layer.dxf_lineweight layer)) /\
   is_frozen d layer h ov = (ov, Ok fr)) /\
  (forall v,
     set_color d layer h v ov
     = if is_valid_layer_color_index v
       then (<[h := OverrideAttributes.with_aci v dflt]> ov, Ok tt)
       else (ov, Raise ValueError)) /\
  (forall v,
     set_rgb d layer h v ov
     = if match v with Some c => is_valid_rgb c | None => true end
       then (<[h := OverrideAttributes.with_rgb v dflt]> ov, Ok tt)
       else (ov, Raise ValueError)) /\
  (forall v,
     set_transparency d layer h v ov
     = if float_le (float_of_Z 0) v && float_le v (float_of_Z 1)
       then (<[h := OverrideAttributes.with_transparency v dflt]> ov, Ok tt)
       else (ov, Raise ValueError)) /\
  (forall v,
     set_linetype d layer h v ov
     = if bool_decide (key v ∈ linetypes d)
       then (<[h := OverrideAttributes.with_linetype v dflt]> ov, Ok tt)
       else (ov, Raise ValueError)) /\
  (forall v,
     set_lineweight d layer h v ov
     = if is_valid_layer_lineweight v
       then (<[h := OverrideAttributes.with_lineweight v dflt]> ov, Ok tt)
       else (ov, Raise ValueError)) /\
  freeze d layer h ov
  = (<[h := OverrideAttributes.with_frozen true dflt]> ov, Ok tt) /\
  thaw d layer h ov
  = (<[h := OverrideAttributes.with_frozen false dflt]> ov, Ok tt) /\
  (forall entry, materialized ov (<[h := entry]> ov) h entry).
Proof.
  intros Hnone Ht Hfr dflt.
  pose proof (default_for_ok d layer h t fr Ht Hfr) as Hd.
  fold dflt in Hd.
  split.
  { repeat split; read_default Hnone Hd. }
  split.
  { intros v. unfold set_color.
    destruct (is_valid_layer_color_index v); simpl;
      [write_default Hnone Hd | reflexivity]. }
  split.
  { intros v. unfold set_rgb.
    destruct v as [c |]; [destruct (is_valid_rgb c) |]; simpl;
      try reflexivity; write_default Hnone Hd. }
  split.
  { intros v. unfold set_transparency.
    destruct (float_le (float_of_Z 0) v && float_le v (float_of_Z 1)); simpl;
      [write_default Hnone Hd | reflexivity]. }
  split.
  { intros v. unfold set_linetype.
    destruct (bool_decide (key v ∈ linetypes d)); simpl;
      [write_default Hnone Hd | reflexivity]. }
  split.
  { intros v. unfold set_lineweight.
    destruct (is_valid_layer_lineweight v); simpl;
      [write_default Hnone Hd | reflexivity]. }
  split; [unfold freeze; write_default Hnone Hd |].
  split; [unfold thaw; write_default Hnone Hd |].
  intros entry. apply materialized_insert.
Qed.

End OverrideMaterialization.

Lemma walls_transparency :
  Layer.transparency (H := sample_imports) walls = Ok (Finite 0).
Proof. reflexivity. Defined.

Lemma no_override_yet (h : string) :
  (∅ : gmap string OverrideAttributes.t) !! h = None.
Proof. reflexivity. Defined.

(** WALLS in the sample document: the viewport 30 has WALLS among its frozen
    layers, and the colour of WALLS is 5. *)
Lemma override_default_derivation_witness :
  ViewportOverrides.is_frozen (H := sample_imports) sample_doc walls "30" ∅
  = (∅, Ok true) /\
  ViewportOverrides.get_color (H := sample_imports) sample_doc walls "30" ∅
  = (∅, Ok 5).
Proof.
  destruct (override_default_derivation (H := sample_imports) sample_doc
              walls ∅ "30"
              (mkViewport (Some "WALLS") ["Walls"; "WALLS"; "0"]) (Finite 0)
              (no_override_yet "30") eq_refl walls_transparency)
    as (Hfrozen & Hcolor & _).
  split; [exact Hfrozen | exact Hcolor].
Defined.

(** The frozen flag of a handle without entry is read from the document at
    the time of the call: the same store gives a different answer once the
    viewport no longer lists the layer. *)
Example is_frozen_follows_the_viewport :
  ViewportOverrides.is_frozen (H := sample_imports) sample_doc walls "30" ∅
  = (∅, Ok true) /\
  ViewportOverrides.is_frozen (H := sample_imports)
    (mkDrawing [("30", EViewport (mkViewport (Some "WALLS") ["0"]))] ∅ ∅)
    walls "30" ∅
  = (∅, Ok false).
Proof. split; reflexivity. Qed.

(** C9, as the claim states it, fails for reads: reading the colour for the
    handle 30, which has no entry, returns the colour of the layer and
    creates no entry. *)
Lemma override_read_does_not_materialize :
  ViewportOverrides.get_color (H := sample_imports) sample_doc walls "30" ∅
  = (∅, Ok 5) /\
  ViewportOverrides.has_overrides (Some "30")
    (fst (ViewportOverrides.get_color (H := sample_imports) sample_doc walls
            "30" ∅))
  = false.
Proof. split; reflexivity. Qed.

(** The first write for the handle 30 stores the default entry of WALLS,
    frozen flag included, with the colour 3. *)
Lemma override_materialization_witness :
  ViewportOverrides.set_color (H := sample_imports) sample_doc walls "30" 3 ∅
  = (<["30" := OverrideAttributes.mk 3 None (Finite 0) "Continuous" (-3)
                 true]> ∅, Ok tt) /\
  ViewportOverrides.is_frozen (H := sample_imports) sample_doc walls "30" ∅
  = (∅, Ok true).
Proof.
  destruct (override_materialization (H := sample_imports) sample_doc walls
              ∅ "30" (Finite 0) true
              (no_override_yet "30") walls_transparency eq_refl)
    as ((_ & _ & _ & _ & _ & Hread) & Hwrite & _).
  split; [exact (Hwrite 3) | exact Hread].
Defined.

(** No entity has the handle FF in the sample document. *)
Lemma dangling_viewport_handle_not_frozen_witness :
  edb_get "FF" (entitydb sample_doc) = None /\
  is_layer_frozen_in_vp sample_doc walls "FF" = Ok false /\
  ViewportOverrides.is_frozen (H := sample_imports) sample_doc walls "FF" ∅
  = (∅, Ok false).
Proof.
  destruct (dangling_viewport_handle_not_frozen (H := sample_imports)
              sample_doc walls "FF" eq_refl) as (Hfr & Hstore).
  split; [reflexivity |]. split; [exact Hfr |].
  exact (Hstore ∅ (Finite 0) (no_override_yet "FF") walls_transparency).
Defined.

(** C8: the layer WALLS with an empty AcCmTransparency payload, the handle 30
    of the viewport that lists WALLS among its frozen layers, and no stored
    entry.  The claim gives [True] for [is_frozen] and 5 for [get_color];
    both calls raise [IndexError], because the default settings are built
    in full and reading the transparency of the layer raises. *)
Theorem override_defaults_raise_on_malformed_transparency :
  edb_get "30" (entitydb sample_doc)
  = Some (EViewport (mkViewport (Some "WALLS") ["Walls"; "WALLS"; "0"])) /\
  Layer.get_color walls_malformed = 5 /\
  Layer.transparency (H := sample_imports) walls_malformed
  = Raise IndexError /\
  ViewportOverrides.is_frozen (H := sample_imports) sample_doc
    walls_malformed "30" ∅
  = (∅, Raise IndexError) /\
  ViewportOverrides.get_color (H := sample_imports) sample_doc
    walls_malformed "30" ∅
  = (∅, Raise IndexError).
Proof. repeat split; reflexivity. Qed.

(** C10: the same layer and the handle FF, which no entity of the document
    has.  [is_layer_frozen_in_vp] returns [False], as the claim says, but
    [is_frozen] of the override store, for which the claim concludes [False]
    as well, raises [IndexError]: it builds the default settings of the
    layer, and reading the transparency raises. *)
Theorem dangling_handle_is_frozen_raises :
  edb_get "FF" (entitydb sample_doc) = None /\
  is_layer_frozen_in_vp sample_doc walls_malformed "FF" = Ok false /\
  ViewportOverrides.is_frozen (H := sample_imports) sample_doc
    walls_malformed "FF" ∅
  = (∅, Raise IndexError).
Proof. repeat split; reflexivity. Qed.

(** ** Renaming *)

Section RenameLemmas.
Context `{Imports}.
Import LayerDoc.

Lemma dxftype_set_dxf_layer (n : string) (e : DXFEntity) :
  dxftype (set_dxf_layer n e) = dxftype e.
Proof. now destruct e. Qed.

Lemma dxf_layer_set_dxf_layer (n x : string) (e : DXFEntity) :
  dxf_layer e = Some x -> dxf_layer (set_dxf_layer n e) = Some n.
Proof. destruct e; simpl; [discriminate | reflexivity | reflexivity]. Qed.

Lemma rename_frozen_layer_keeps_attr (old new : string) (e e' : DXFEntity) :
  rename_frozen_layer old new e = Ok e' ->
  dxf_layer e' = dxf_layer e /\ dxftype e' = dxftype e.
Proof.
  destruct e; simpl; try discriminate.
  intros [= <-]. split; reflexivity.
Qed.

Lemma after_attr_layer (old new : string) (e : DXFEntity) :
  dxf_layer (after_attr old new e)
  = renamed_layer_attr old new (dxf_layer e).
Proof.
  unfold after_attr, renamed_layer_attr.
  destruct (dxf_layer e) as [x |] eqn:E; [| exact E].
  case_bool_decide; [now apply dxf_layer_set_dxf_layer with x | exact E].
Qed.

Lemma after_attr_type (old new : string) (e : DXFEntity) :
  dxftype (after_attr old new e) = dxftype e.
Proof.
  unfold after_attr. destruct (dxf_layer e); [| reflexivity].
  case_bool_decide; [apply dxftype_set_dxf_layer | reflexivity].
Qed.

(** One iteration rewrites the [layer] attribute, whether or not it then
    raises. *)
Lemma rename_references_in_layer (old new : string) (e : DXFEntity) :
  dxf_layer (fst (fst (rename_references_in old new e)))
  = renamed_layer_attr old new (dxf_layer e).
Proof.
  unfold rename_references_in. fold (after_attr old new e).
  pose proof (after_attr_layer old new e) as Hl.
  repeat case_bool_decide; simpl; try exact Hl.
  destruct (rename_frozen_layer old new (after_attr old new e)) as [e' | x]
    eqn:E; simpl; [| exact Hl].
  apply rename_frozen_layer_keeps_attr in E as [-> _]. exact Hl.
Qed.

(** One iteration succeeds on an entity built by the factory, and logs the
    record of its type. *)
Lemma rename_references_in_ok (old new : string) (e : DXFEntity) :
  (dxftype e = "VIEWPORT" -> exists vp, e = EViewport vp) ->
  exists e',
    rename_references_in old new e
    = (e',
       if bool_decide (dxftype e = "LAYER_FILTER")
       then [DebugRenaming old "LAYER_FILTER"]
       else if bool_decide (dxftype e = "LAYER_INDEX")
            then [DebugRenaming old "LAYER_INDEX"]
            else [],
       Ok tt).
Proof.
  intros Hvp. unfold rename_references_in. fold (after_attr old new e).
  rewrite after_attr_type.
  destruct (bool_decide (dxftype e = "VIEWPORT")) eqn:Ev.
  - apply bool_decide_eq_true in Ev.
    destruct (Hvp Ev) as [vp ->]. simpl.
    unfold after_attr; simpl.
    destruct (vp_layer vp) as [x |]; [case_bool_decide |]; simpl;
      eexists; reflexivity.
  - apply bool_decide_eq_false in Ev.
    repeat case_bool_decide; eexists; reflexivity.
Qed.

End RenameLemmas.

Section RenameLoop.
Context `{Imports}.
Import LayerDoc.
Variables old new : string.

(** A loop that ends without exception has visited every entity: the
    handles are kept and every [layer] attribute is renamed. *)
Lemma rename_references_loop_ok (db : list (string * DXFEntity)) :
  forall db' msgs,
    rename_references_loop old new db = (db', msgs, Ok tt) ->
    Forall2 (references_renamed old new) db db'.
Proof.
  induction db as [| [h e] rest IH]; intros db' msgs; simpl.
  - intros [= <- _]. constructor.
  - pose proof (rename_references_in_layer old new e) as Hl.
    destruct (rename_references_in old new e) as [[e' m1] [[] | x]];
      [| discriminate].
    destruct (rename_references_loop old new rest) as [[rest' m2] r] eqn:E.
    intros [= <- _ ->].
    constructor; [split; [reflexivity | exact Hl] | now apply (IH _ m2)].
Qed.

(** On a database built by the factory the loop ends without exception and
    logs one record per LAYER_FILTER and LAYER_INDEX entity. *)
Lemma rename_references_loop_succeeds (db : list (string * DXFEntity)) :
  viewports_registered db ->
  exists db',
    rename_references_loop old new db = (db', rename_log old db, Ok tt).
Proof.
  induction db as [| [h e] rest IH]; intros Hreg; simpl.
  - eexists; reflexivity.
  - destruct (rename_references_in_ok old new e) as [e' ->].
    { intros Ht. apply (Hreg h e); [left | exact Ht]. }
    destruct IH as [rest' ->].
    { intros h' e0 Hin. apply (Hreg h' e0). now right. }
    eexists; reflexivity.
Qed.

End RenameLoop.

Section RenameStore.
Context `{Imports}.

Lemma renamed_layer_attr_None (old new : string) :
  renamed_layer_attr old new None = None.
Proof. reflexivity. Qed.

(** Storing a renamed layer under the handle of a layer changes no [layer]
    attribute, no handle and no entity type. *)
Lemma edb_set_layer (self : string) (l l' : Layer.t)
  (db : list (string * DXFEntity)) :
  edb_get self db = Some (ELayer l) ->
  Forall2 (fun p q => fst q = fst p /\ dxf_layer (snd q) = dxf_layer (snd p)
                      /\ dxftype (snd q) = dxftype (snd p)
                      /\ (forall vp, snd p = EViewport vp -> snd q = snd p))
    db (edb_set self (ELayer l') db).
Proof.
  induction db as [| [h e] rest IH]; simpl; [discriminate |].
  case_bool_decide.
  - intros [= ->]. constructor; [simpl; repeat split; discriminate |].
    clear IH. induction rest as [| p rest IH]; constructor; auto.
  - intros Hget. constructor; [repeat split; auto | now apply IH].
Qed.

Lemma viewports_registered_edb_set (self : string) (l l' : Layer.t)
  (db : list (string * DXFEntity)) :
  edb_get self db = Some (ELayer l) ->
  viewports_registered db ->
  viewports_registered (edb_set self (ELayer l') db).
Proof.
  intros Hget Hreg h e Hin Ht.
  pose proof (edb_set_layer self l l' db Hget) as HF.
  apply list_elem_of_lookup in Hin as [i Hi].
  destruct (Forall2_lookup_r _ _ _ _ _ HF Hi) as ([h0 e0] & Hi0 & Hrel).
  simpl in Hrel. destruct Hrel as (_ & _ & Hty & Hvp).
  destruct (Hreg h0 e0) as [vp ->].
  - apply list_elem_of_lookup. eauto.
  - congruence.
  - rewrite (Hvp vp eq_refl). eauto.
Qed.

Lemma rename_log_same_types (old : string)
  (db db' : list (string * DXFEntity)) :
  Forall2 (fun p q => dxftype (snd q) = dxftype (snd p)) db db' ->
  rename_log old db' = rename_log old db.
Proof.
  unfold rename_log. induction 1 as [| p q ps qs Hpq _ IH]; simpl;
    [reflexivity |].
  rewrite Hpq. f_equal. exact IH.
Qed.

Lemma rename_log_edb_set (old self : string) (l l' : Layer.t)
  (db : list (string * DXFEntity)) :
  edb_get self db = Some (ELayer l) ->
  rename_log old (edb_set self (ELayer l') db) = rename_log old db.
Proof.
  intros Hget. apply rename_log_same_types.
  eapply Forall2_impl; [| exact (edb_set_layer self l l' db Hget)].
  intros p q (_ & _ & Hty & _). exact Hty.
Qed.

End RenameStore.

Section RenameProperties.
Context `{Imports}.
Import LayerDoc.

Lemma has_illegal_character_invalid (name : string) (c : ascii) :
  char_in c name = true ->
  char_in c INVALID_NAME_CHARACTERS = true ->
  is_valid_layer_name name = false.
Proof.
  intros Hin Hbad. induction name as [| a r IH]; simpl in *; [discriminate |].
  apply orb_true_iff in Hin as [Ha | Hr].
  - apply bool_decide_eq_true in Ha. subst a. now rewrite Hbad.
  - rewrite (IH Hr). apply andb_false_r.
Qed.

(** The guards of [rename], in the order of the code. *)
Lemma rename_guards (w : World) (self : string) (l : Layer.t)
  (name : string) :
  edb_get self (entitydb (doc w)) = Some (ELayer l) ->
  rename self name w
  = if negb (is_valid_layer_name name) then (w, Raise ValueError)
    else if bool_decide (lower (Layer.dxf_name l) = "0")
            || bool_decide (lower (Layer.dxf_name l) = "defpoints")
    then (w, Raise ValueError)
    else if has_entry (layers (doc w)) name then (w, Raise ValueError)
    else _rename_layer_references (Layer.dxf_name l) name
           (mkWorld
              (mkDrawing
                 (edb_set self (ELayer (Layer.with_name name l))
                    (entitydb (doc w)))
                 (table_replace (layers (doc w)) (Layer.dxf_name l) name
                    self)
                 (linetypes (doc w)))
              (debug_log w)).
Proof. intros Hget. unfold rename. now rewrite Hget. Qed.

Lemma Forall2_references_compose (old new : string)
  (db db1 db' : list (string * DXFEntity)) :
  Forall2 (fun p q => fst q = fst p /\ dxf_layer (snd q) = dxf_layer (snd p)
                      /\ dxftype (snd q) = dxftype (snd p)
                      /\ (forall vp, snd p = EViewport vp -> snd q = snd p))
    db db1 ->
  Forall2 (references_renamed old new) db1 db' ->
  Forall2 (references_renamed old new) db db'.
Proof.
  intros H1. revert db'.
  induction H1 as [| p q ps qs Hpq _ IH]; intros db' H2.
  - inversion H2; constructor.
  - inversion H2 as [| q' r qs' rs Hqr Hrest]; subst.
    constructor; [| now apply IH].
    destruct Hpq as (Hh & Hl & _). destruct Hqr as (Hh' & Hl').
    split; congruence.
Qed.

(** C3: [rename] raises [ValueError] when the name of the layer is 0 or
    DEFPOINTS (in any case), when the new name contains one of the reserved
    illegal characters, and when the layer table has an entry whose name
    equals the new name up to case; in each of these cases the world after
    the call is the world before it: the name of the layer, the layer table,
    every entity of the database and the log.  Of [str.lower] the theorem
    uses only that it maps 0 to 0 and DEFPOINTS to defpoints. *)
Theorem rename_rejection (w : World) (self : string) (l : Layer.t)
  (name : string) :
  lower "0" = "0" ->
  lower "DEFPOINTS" = "defpoints" ->
  edb_get self (entitydb (doc w)) = Some (ELayer l) ->
  Layer.dxf_name l = "0" \/
  Layer.dxf_name l = "DEFPOINTS" \/
  lower (Layer.dxf_name l) = "0" \/
  lower (Layer.dxf_name l) = "defpoints" \/
  (exists c, char_in c name = true /\
             char_in c INVALID_NAME_CHARACTERS = true) \/
  (exists other handle,
      lower other = lower name /\
      layers (doc w) !! key other = Some handle) ->
  rename self name w = (w, Raise ValueError).
Proof.
  intros Hzero Hdefpoints Hget Hcase.
  rewrite (rename_guards w self l name Hget).
  destruct (is_valid_layer_name name) eqn:Hvalid; simpl; [| reflexivity].
  assert (Hprot : lower (Layer.dxf_name l) = "0" \/
                  lower (Layer.dxf_name l) = "defpoints" \/
                  has_entry (layers (doc w)) name = true).
  { destruct Hcase as [E | [E | [H0 | [Hd | [(c & Hin & Hbad) | Hcol]]]]].
    - left. now rewrite E.
    - right; left. now rewrite E.
    - now left.
    - right; now left.
    - rewrite (has_illegal_character_invalid name c Hin Hbad) in Hvalid.
      discriminate.
    - destruct Hcol as (other & handle & Hkey & Hsome).
      right; right. unfold has_entry, key in *. apply bool_decide_eq_true.
      rewrite <- Hkey. eauto. }
  destruct Hprot as [H0 | [Hd | Hentry]].
  - now rewrite (bool_decide_eq_true_2 _ H0).
  - rewrite (bool_decide_eq_true_2 _ Hd). now rewrite orb_true_r.
  - rewrite Hentry. now destruct (_ || _).
Qed.

End RenameProperties.

Section RenameCompleteness.
Context `{Imports}.
Import LayerDoc.

Lemma rename_references_spec (old new : string) (w : World) :
  _rename_layer_references old new w
  = let r := rename_references_loop old new (entitydb (doc w)) in
    (mkWorld (mkDrawing (fst (fst r)) (layers (doc w)) (linetypes (doc w)))
             (debug_log w ++ snd (fst r)), snd r).
Proof.
  unfold _rename_layer_references.
  now destruct (rename_references_loop old new (entitydb (doc w)))
    as [[db' msgs] r].
Qed.

(** C2: let the layer [self], named A, be registered in the layer table
    under its name.  (1) If [rename self B] returns without exception, then
    in the database after the call every entity has its handle and position,
    every [layer] attribute that equalled A up to case is B, every other
    [layer] attribute is as before, no [layer] attribute equals A up to
    case, and the table holds the layer under the key of B.  (2) If B is a
    valid name without entry in the table, A is not protected and every
    VIEWPORT entity is a viewport object, then the rename does return
    without exception, whatever LAYER_FILTER and LAYER_INDEX entities the
    database holds: each of them only adds a debug record to the log. *)
Theorem rename_completeness (w : World) (self : string) (l : Layer.t)
  (B : string) :
  edb_get self (entitydb (doc w)) = Some (ELayer l) ->
  has_entry (layers (doc w)) (Layer.dxf_name l) = true ->
  (forall w', rename self B w = (w', Ok tt) ->
     Forall2 (references_renamed (Layer.dxf_name l) B)
       (entitydb (doc w)) (entitydb (doc w')) /\
     (forall h e x, (h, e) ∈ entitydb (doc w') -> dxf_layer e = Some x ->
                    key x <> key (Layer.dxf_name l)) /\
     layers (doc w')
     = table_replace (layers (doc w)) (Layer.dxf_name l) B self) /\
  (is_valid_layer_name B = true ->
   lower (Layer.dxf_name l) <> "0" ->
   lower (Layer.dxf_name l) <> "defpoints" ->
   has_entry (layers (doc w)) B = false ->
   viewports_registered (entitydb (doc w)) ->
   exists w',
     rename self B w = (w', Ok tt) /\
     debug_log w'
     = debug_log w ++ rename_log (Layer.dxf_name l) (entitydb (doc w))).
Proof.
  intros Hget Hreg. set (A := Layer.dxf_name l) in *.
  pose proof (rename_guards w self l B Hget) as Hrename. fold A in Hrename.
  split.
  - intros w' Hok. rewrite Hrename in Hok.
    destruct (negb (is_valid_layer_name B)); [discriminate |].
    destruct (_ || _); [discriminate |].
    destruct (has_entry (layers (doc w)) B) eqn:HB; [discriminate |].
    assert (Hkey : key B <> key A).
    { intros Heq. unfold has_entry in *. rewrite Heq in HB. congruence. }
    rewrite rename_references_spec in Hok. cbv zeta in Hok. simpl in Hok.
    destruct (rename_references_loop A B
                (edb_set self (ELayer (Layer.with_name B l))
                   (entitydb (doc w)))) as [[db' msgs] r] eqn:Hloop.
    simpl in Hok. injection Hok as <- ->. simpl.
    apply rename_references_loop_ok in Hloop.
    assert (HF : Forall2 (references_renamed A B) (entitydb (doc w)) db').
    { eapply Forall2_references_compose; [| exact Hloop].
      now apply edb_set_layer with l. }
    split; [exact HF |]. split; [| reflexivity].
    intros h e x Hin Hx.
    apply list_elem_of_lookup in Hin as [i Hi].
    destruct (Forall2_lookup_r _ _ _ _ _ HF Hi) as ([h0 e0] & _ & _ & Hl).
    simpl in Hl. rewrite Hx in Hl. unfold renamed_layer_attr in Hl.
    destruct (dxf_layer e0) as [x0 |]; [| discriminate].
    case_bool_decide; injection Hl as ->; assumption.
  - intros Hvalid H0 Hd HB Hvp. rewrite Hrename, Hvalid; simpl.
    rewrite (bool_decide_eq_false_2 _ H0), (bool_decide_eq_false_2 _ Hd), HB.
    simpl. rewrite rename_references_spec. cbv zeta. simpl.
    destruct (rename_references_loop_succeeds A B
                (edb_set self (ELayer (Layer.with_name B l))
                   (entitydb (doc w)))) as [db' ->].
    { now apply viewports_registered_edb_set with l. }
    simpl. eexists. split; [reflexivity |]. simpl.
    now rewrite (rename_log_edb_set A self l _ _ Hget).
Qed.

End RenameCompleteness.

Lemma sample_db_registered : viewports_registered sample_db.
Proof.
  intros h e Hin Ht. unfold sample_db in Hin.
  repeat (apply elem_of_cons in Hin as [Hin | Hin];
          [injection Hin as -> ->; simpl in Ht;
           first [discriminate Ht | eexists; reflexivity] |]).
  inversion Hin.
Qed.

(** Renaming WALLS to WALL in the sample document: the rename returns, the
    line that referred to it as walls and the viewport now refer to WALL,
    and the LAYER_FILTER and LAYER_INDEX objects are reported in the log. *)
Lemma rename_completeness_witness :
  exists w',
    LayerDoc.rename (H := sample_imports) "11" "WALL" sample_world = (w', Ok tt) /\
    debug_log w' = [DebugRenaming "WALLS" "LAYER_FILTER";
                    DebugRenaming "WALLS" "LAYER_INDEX"] /\
    Forall2 (references_renamed (H := sample_imports) "WALLS" "WALL")
      sample_db
      (entitydb (doc w')) /\
    (forall h e x, (h, e) ∈ entitydb (doc w') -> dxf_layer e = Some x ->
                   key (H := sample_imports) x <> "walls").
Proof.
  destruct (rename_completeness (H := sample_imports) sample_world "11"
              walls "WALL"
              eq_refl eq_refl) as [Hdone Hruns].
  destruct (Hruns eq_refl ltac:(discriminate) ltac:(discriminate) eq_refl
              sample_db_registered) as (w' & Hrename & Hlog).
  destruct (Hdone w' Hrename) as (Hrefs & Hnone & _).
  exists w'. split; [exact Hrename |]. split; [exact Hlog |].
  split; [exact Hrefs | exact Hnone].
Defined.

(** In the sample document, renaming WALLS to a name with an asterisk
    fails and changes nothing. *)
Lemma rename_rejection_witness :
  edb_get "11" (entitydb (doc sample_world)) = Some (ELayer walls) /\
  LayerDoc.rename (H := sample_imports) "11" "WA*LL" sample_world
  = (sample_world, Raise ValueError).
Proof.
  split; [reflexivity |].
  apply (rename_rejection (H := sample_imports) sample_world "11" walls
           "WA*LL" eq_refl eq_refl eq_refl).
  do 4 right. left. exists "*"%char. split; reflexivity.
Defined.

(** Further rejected renames of the sample document: the layer 0, and a new
    name that collides with the layer 0 or, up to case, with WALLS itself. *)
Example rejected_renames_of_sample :
  LayerDoc.rename (H := sample_imports) "10" "ZERO" sample_world
  = (sample_world, Raise ValueError) /\
  LayerDoc.rename (H := sample_imports) "11" "0" sample_world
  = (sample_world, Raise ValueError) /\
  LayerDoc.rename (H := sample_imports) "11" "walls" sample_world
  = (sample_world, Raise ValueError).
Proof. repeat split; reflexivity. Qed.

(** * Part III: further properties of the code *)

(** ** The flag bits of a layer *)

Section FlagBits.
Import Layer.

Lemma land_pow2 (a n : Z) :
  0 <= n -> Z.land a (2 ^ n) = if Z.testbit a n then 2 ^ n else 0.
Proof.
  intros Hn. apply Z.bits_inj'. intros m Hm.
  rewrite Z.land_spec, Z.pow2_bits_eqb by lia.
  destruct (Z.eqb_spec n m) as [-> | Hne].
  - destruct (Z.testbit a m); simpl;
      [now rewrite Z.pow2_bits_true | now rewrite Z.bits_0].
  - rewrite andb_false_r.
    destruct (Z.testbit a n);
      [now rewrite Z.pow2_bits_false | now rewrite Z.bits_0].
Qed.

Lemma is_frozen_bit (l : Layer.t) : is_frozen l = Z.testbit (dxf_flags l) 0.
Proof.
  unfold is_frozen, FROZEN. change 1 with (2 ^ 0).
  rewrite (land_pow2 (dxf_flags l) 0) by lia.
  now destruct (Z.testbit (dxf_flags l) 0).
Qed.

Lemma is_locked_bit (l : Layer.t) : is_locked l = Z.testbit (dxf_flags l) 2.
Proof.
  unfold is_locked, LOCK. change 4 with (2 ^ 2).
  rewrite (land_pow2 (dxf_flags l) 2) by lia.
  now destruct (Z.testbit (dxf_flags l) 2).
Qed.

Lemma small_bits (a n : Z) :
  0 <= a < 256 -> 8 <= n -> Z.testbit a n = false.
Proof.
  intros Ha Hn. destruct (Z.eq_dec a 0) as [-> | Hne]; [apply Z.bits_0 |].
  apply Z.bits_above_log2; [lia |].
  assert (Z.log2 a < 8) by (apply Z.log2_lt_pow2; lia). lia.
Qed.

Lemma below_8_cases (n : Z) :
  0 <= n -> n < 8 ->
  n = 0 \/ n = 1 \/ n = 2 \/ n = 3 \/ n = 4 \/ n = 5 \/ n = 6 \/ n = 7.
Proof. lia. Qed.

Lemma testbit_THAW (n : Z) :
  0 <= n -> Z.testbit THAW n = (0 <? n) && (n <? 8).
Proof.
  intros Hn. destruct (Z.ltb_spec n 8) as [Hlt | Hge].
  - destruct (below_8_cases n Hn Hlt)
      as [-> | [-> | [-> | [-> | [-> | [-> | [-> | ->]]]]]]]; reflexivity.
  - rewrite andb_false_r. apply small_bits; [unfold THAW; lia | lia].
Qed.

Lemma testbit_UNLOCK (n : Z) :
  0 <= n -> Z.testbit UNLOCK n = negb (n =? 2) && (n <? 8).
Proof.
  intros Hn. destruct (Z.ltb_spec n 8) as [Hlt | Hge].
  - destruct (below_8_cases n Hn Hlt)
      as [-> | [-> | [-> | [-> | [-> | [-> | [-> | ->]]]]]]]; reflexivity.
  - rewrite andb_false_r. apply small_bits; [unfold UNLOCK; lia | lia].
Qed.

Lemma testbit_FROZEN (n : Z) : 0 <= n -> Z.testbit FROZEN n = (n =? 0).
Proof.
  intros Hn. change FROZEN with (2 ^ 0).
  rewrite Z.pow2_bits_eqb by lia. apply Z.eqb_sym.
Qed.

Lemma testbit_LOCK (n : Z) : 0 <= n -> Z.testbit LOCK n = (n =? 2).
Proof.
  intros Hn. change LOCK with (2 ^ 2).
  rewrite Z.pow2_bits_eqb by lia. apply Z.eqb_sym.
Qed.

(** The bits of the flags after each of the four operations. *)
Lemma flag_bits (l : Layer.t) (n : Z) :
  0 <= n ->
  Z.testbit (dxf_flags (freeze l)) n = (n =? 0) || Z.testbit (dxf_flags l) n
  /\ Z.testbit (dxf_flags (thaw l)) n
     = (0 <? n) && (n <? 8) && Z.testbit (dxf_flags l) n
  /\ Z.testbit (dxf_flags (lock l)) n = (n =? 2) || Z.testbit (dxf_flags l) n
  /\ Z.testbit (dxf_flags (unlock l)) n
     = negb (n =? 2) && (n <? 8) && Z.testbit (dxf_flags l) n.
Proof.
  intros Hn. unfold freeze, thaw, lock, unlock; simpl.
  rewrite !Z.lor_spec, !Z.land_spec, testbit_THAW, testbit_UNLOCK,
    testbit_FROZEN, testbit_LOCK by lia.
  repeat split; try apply orb_comm; apply andb_comm.
Qed.

(** X1: [freeze] and [lock] set their flag and [thaw] and [unlock] clear it,
    whatever the flags were, negative values included; a second call of the
    same operation changes nothing. *)
Theorem flag_operations_take_effect (l : Layer.t) :
  is_frozen (freeze l) = true /\
  is_frozen (thaw l) = false /\
  is_locked (lock l) = true /\
  is_locked (unlock l) = false /\
  freeze (freeze l) = freeze l /\
  thaw (thaw l) = thaw l /\
  lock (lock l) = lock l /\
  unlock (unlock l) = unlock l.
Proof.
  rewrite !is_frozen_bit, !is_locked_bit.
  destruct (flag_bits l 0 ltac:(lia)) as (Hf & Ht & _ & _).
  destruct (flag_bits l 2 ltac:(lia)) as (_ & _ & Hl & Hu).
  rewrite Hf, Ht, Hl, Hu. do 4 (split; [reflexivity |]).
  unfold freeze, thaw, lock, unlock, with_flags; simpl.
  repeat split; f_equal.
  - rewrite <- Z.lor_assoc. reflexivity.
  - rewrite <- Z.land_assoc. reflexivity.
  - rewrite <- Z.lor_assoc. reflexivity.
  - rewrite <- Z.land_assoc. reflexivity.
Qed.

(** X2: the frozen flag and the locked flag are independent: freezing and
    thawing keep [is_locked], locking and unlocking keep [is_frozen]. *)
Theorem frozen_and_locked_are_independent (l : Layer.t) :
  is_locked (freeze l) = is_locked l /\
  is_locked (thaw l) = is_locked l /\
  is_frozen (lock l) = is_frozen l /\
  is_frozen (unlock l) = is_frozen l.
Proof.
  rewrite !is_frozen_bit, !is_locked_bit.
  destruct (flag_bits l 0 ltac:(lia)) as (_ & _ & Hl & Hu).
  destruct (flag_bits l 2 ltac:(lia)) as (Hf & Ht & _ & _).
  rewrite Hf, Ht, Hl, Hu. repeat split.
Qed.

(** X3: what the operations do to the other flag bits.  [freeze] and [lock]
    keep every other bit.  [thaw] and [unlock] mask the flags with an eight
    bit constant: they keep the other bits 0 to 7 and clear every bit from
    bit 8 upwards. *)
Theorem flag_operations_on_other_bits (l : Layer.t) (n : nat) :
  Z.testbit (dxf_flags (freeze l)) (Z.of_nat n)
  = (Z.of_nat n =? 0) || Z.testbit (dxf_flags l) (Z.of_nat n) /\
  Z.testbit (dxf_flags (lock l)) (Z.of_nat n)
  = (Z.of_nat n =? 2) || Z.testbit (dxf_flags l) (Z.of_nat n) /\
  Z.testbit (dxf_flags (thaw l)) (Z.of_nat n)
  = (if (8 <=? Z.of_nat n) || (Z.of_nat n =? 0) then false
     else Z.testbit (dxf_flags l) (Z.of_nat n)) /\
  Z.testbit (dxf_flags (unlock l)) (Z.of_nat n)
  = (if (8 <=? Z.of_nat n) || (Z.of_nat n =? 2) then false
     else Z.testbit (dxf_flags l) (Z.of_nat n)).
Proof.
  destruct (flag_bits l (Z.of_nat n) ltac:(lia)) as (Hf & Ht & Hl & Hu).
  rewrite Hf, Ht, Hl, Hu.
  split; [reflexivity |]. split; [reflexivity |].
  destruct (Z.leb_spec 8 (Z.of_nat n)), (Z.ltb_spec (Z.of_nat n) 8),
    (Z.eqb_spec (Z.of_nat n) 0), (Z.eqb_spec (Z.of_nat n) 2),
    (Z.ltb_spec 0 (Z.of_nat n)); simpl; try lia; split; reflexivity.
Qed.

End FlagBits.

Section FlagRoundTrips.
Import Layer.

Ltac flag_bits_eq f Hbit Hhigh :=
  let n := fresh "n" in
  let Hn := fresh "Hn" in
  let Hlt := fresh "Hlt" in
  apply Z.bits_inj'; intros n Hn;
  repeat first [rewrite Z.land_spec | rewrite Z.lor_spec];
  rewrite ?testbit_THAW, ?testbit_UNLOCK, ?testbit_FROZEN, ?testbit_LOCK
    by lia;
  destruct (Z.ltb_spec n 8) as [Hlt | Hlt];
  [ destruct (below_8_cases n Hn Hlt)
      as [-> | [-> | [-> | [-> | [-> | [-> | [-> | ->]]]]]]];
    rewrite ?Hbit; try reflexivity;
    match goal with
    | |- context [Z.testbit f ?k] => destruct (Z.testbit f k)
    end; reflexivity
  | rewrite (Hhigh n) by lia;
    destruct (Z.ltb_spec 0 n), (Z.eqb_spec n 0), (Z.eqb_spec n 2);
    try lia; reflexivity ].

Lemma flags_round_trips (f : Z) :
  0 <= f < 256 ->
  (Z.testbit f 0 = false -> Z.land (Z.lor f FROZEN) THAW = f) /\
  (Z.testbit f 0 = true -> Z.lor (Z.land f THAW) FROZEN = f) /\
  (Z.testbit f 2 = false -> Z.land (Z.lor f LOCK) UNLOCK = f) /\
  (Z.testbit f 2 = true -> Z.lor (Z.land f UNLOCK) LOCK = f).
Proof.
  intros Hrange.
  assert (Hhigh : forall n, 8 <= n -> Z.testbit f n = false)
    by (intros n Hn; now apply small_bits).
  repeat split; intros Hbit; flag_bits_eq f Hbit Hhigh.
Qed.

(** X4: for flags that fit in eight bits (0 to 255), freezing and thawing
    are inverse to each other on the frozen flag alone: thawing a layer that
    was frozen by [freeze] gives back the layer when it was not frozen, and
    freezing a thawed layer gives back the layer when it was frozen; the
    same holds for [lock] and [unlock]. *)
Theorem flag_round_trips (l : Layer.t) :
  0 <= dxf_flags l < 256 ->
  (is_frozen l = false -> thaw (freeze l) = l) /\
  (is_frozen l = true -> freeze (thaw l) = l) /\
  (is_locked l = false -> unlock (lock l) = l) /\
  (is_locked l = true -> lock (unlock l) = l).
Proof.
  intros Hrange. rewrite is_frozen_bit, is_locked_bit.
  destruct (flags_round_trips (dxf_flags l) Hrange) as (H1 & H2 & H3 & H4).
  unfold thaw, freeze, lock, unlock.
  repeat split; intros Hbit; destruct l; unfold with_flags; cbn [dxf_name
    dxf_flags dxf_color dxf_true_color dxf_linetype dxf_lineweight xdata] in *;
    f_equal; auto.
Qed.

End FlagRoundTrips.

(** WALLS has the flags 0: freezing and thawing it gives WALLS back.  With
    the flag bit 8 set this is no longer so: [thaw] clears that bit. *)
Lemma flag_round_trips_witness :
  0 <= Layer.dxf_flags walls < 256 /\
  Layer.thaw (Layer.freeze walls) = walls /\
  Layer.dxf_flags
    (Layer.thaw (Layer.freeze (Layer.with_flags 256 walls))) = 0.
Proof.
  split; [simpl; lia |].
  split; [| reflexivity].
  apply (flag_round_trips walls); [simpl; lia | reflexivity].
Defined.

(** ** Visibility and colour at the edges *)

Section ColorEdges.
Import Layer.

Lemma with_color_eq (l : Layer.t) (a b : Z) :
  a = b -> with_color a l = with_color b l.
Proof. now intros ->. Qed.

(** X5: for a layer whose stored colour is a valid layer colour, [on]
    leaves the layer on and [off] leaves it off, both keep the colour read
    by [get_color], both are idempotent, and the last of several calls
    decides. *)
Theorem visibility_toggles (l : Layer.t) :
  is_valid_layer_color_index (dxf_color l) = true ->
  is_on (on l) = true /\
  is_off (off l) = true /\
  get_color (on l) = get_color l /\
  get_color (off l) = get_color l /\
  on (on l) = on l /\
  off (off l) = off l /\
  on (off l) = on l /\
  off (on l) = off l.
Proof.
  rewrite is_valid_layer_color_index_spec. intros Hvalid.
  unfold is_on, is_off, get_color, on, off; simpl.
  split; [apply negb_true_iff, Z.ltb_ge; lia |].
  split; [apply Z.ltb_lt; lia |].
  split; [lia |]. split; [lia |].
  unfold with_color; simpl.
  repeat split; f_equal; lia.
Qed.

(** X6: for an argument that is a valid layer colour, negative ones
    included, [set_color] uses the magnitude of the argument: a negative
    argument sets the same colour as its magnitude and cannot switch the
    layer off; the colour read back is the magnitude, the visibility is
    kept, and the stored colour is valid. *)
Theorem set_color_uses_magnitude (c : Z) (l : Layer.t) :
  is_valid_layer_color_index c = true ->
  set_color (- c) l = set_color c l /\
  get_color (set_color c l) = Z.abs c /\
  is_off (set_color c l) = is_off l /\
  is_on (set_color c l) = is_on l /\
  is_valid_layer_color_index (dxf_color (set_color c l)) = true.
Proof.
  rewrite !is_valid_layer_color_index_spec. intros Hc.
  assert (Hoff : is_off (set_color c l) = is_off l)
    by (apply set_color_keeps_visibility; lia).
  split; [unfold set_color; now rewrite Z.abs_opp |].
  split; [unfold get_color; rewrite set_color_stored;
          destruct (is_on l); lia |].
  split; [exact Hoff |].
  split; [unfold is_on; now rewrite Hoff |].
  rewrite set_color_stored. destruct (is_on l); lia.
Qed.

(** X7: a valid layer colour stays valid under [on], [off] and [set_color]
    with a valid argument, and the colour read by [get_color] is then in
    1..255. *)
Theorem layer_color_stays_valid (l : Layer.t) :
  is_valid_layer_color_index (dxf_color l) = true ->
  is_valid_layer_color_index (dxf_color (on l)) = true /\
  is_valid_layer_color_index (dxf_color (off l)) = true /\
  (forall m, is_valid_layer_color_index m = true ->
             is_valid_layer_color_index (dxf_color (set_color m l)) = true) /\
  1 <= get_color l <= 255 /\
  fix_layer_color (dxf_color l) = dxf_color l.
Proof.
  rewrite !is_valid_layer_color_index_spec. intros Hv.
  unfold on, off, get_color; simpl.
  split; [lia |]. split; [lia |].
  split.
  - intros m. rewrite !is_valid_layer_color_index_spec. intros Hm.
    unfold set_color; simpl. destruct (is_on l); lia.
  - split; [lia |]. unfold fix_layer_color.
    now rewrite (proj2 (is_valid_layer_color_index_spec _) Hv).
Qed.

End ColorEdges.

(** WALLS has the valid colour -5: it is off, [on] switches it on. *)
Lemma visibility_toggles_witness :
  is_valid_layer_color_index (Layer.dxf_color walls) = true /\
  Layer.is_on (Layer.on walls) = true /\
  Layer.off (Layer.on walls) = walls.
Proof.
  destruct (visibility_toggles walls eq_refl)
    as (Hon & _ & _ & _ & _ & _ & _ & Hoff).
  split; [reflexivity |]. split; [exact Hon |].
  rewrite Hoff. reflexivity.
Defined.

(** Setting the colour -12 on WALLS, which is off, stores -12 and reads
    12. *)
Lemma set_color_uses_magnitude_witness :
  is_valid_layer_color_index (-12) = true /\
  Layer.get_color (Layer.set_color (-12) walls) = 12 /\
  Layer.is_off (Layer.set_color (-12) walls) = true.
Proof.
  destruct (set_color_uses_magnitude (-12) walls eq_refl)
    as (_ & Hget & Hoff & _).
  split; [reflexivity |]. split; [exact Hget | exact Hoff].
Defined.

(** WALLS has the valid colour -5. *)
Lemma layer_color_stays_valid_witness :
  is_valid_layer_color_index (Layer.dxf_color walls) = true /\
  is_valid_layer_color_index (Layer.dxf_color (Layer.on walls)) = true /\
  1 <= Layer.get_color walls <= 255.
Proof.
  destruct (layer_color_stays_valid walls eq_refl) as (Hon & _ & _ & Hget & _).
  split; [reflexivity |]. split; [exact Hon | exact Hget].
Defined.

(** ** Description and transparency in the extended data *)

Section XDataProperties.
Context `{Imports}.
Import Layer.

Lemma appid_names_differ : AcAecLayerStandard <> AcCmTransparency.
Proof. discriminate. Qed.

Lemma description_set_spec (value : string) (b : bound) :
  description_set value b
  = (mkBound
       (with_xdata
          (<[AcAecLayerStandard :=
               [mkTag 1000 (XStr ""); mkTag 1000 (XStr value)]]>
             (xdata (self b)))
          (self b))
       ((fun ids => {[key AcAecLayerStandard]} ∪ ids) <$> doc_appids b),
     Ok tt).
Proof.
  unfold description_set.
  destruct (register_appid_spec AcAecLayerStandard b) as [Hs Ha].
  rewrite Hs, Ha. unfold set_xdata, discard_xdata; simpl.
  now rewrite insert_delete_eq.
Qed.

(** X9: the description setter never raises, and the description read
    after it is the text that was set, whatever payload the layer held
    before, a malformed one included; the payload of the application-id is
    replaced by the placeholder and the text, and the payloads of all other
    application-ids are kept. *)
Theorem description_round_trip (value : string) (b : bound) :
  snd (description_set value b) = Ok tt /\
  description (self (fst (description_set value b))) = Ok (XStr value) /\
  xdata (self (fst (description_set value b))) !! AcAecLayerStandard
  = Some [mkTag 1000 (XStr ""); mkTag 1000 (XStr value)] /\
  (forall appid, appid <> AcAecLayerStandard ->
     xdata (self (fst (description_set value b))) !! appid
     = xdata (self b) !! appid).
Proof.
  rewrite description_set_spec; simpl.
  split; [reflexivity |].
  split.
  { unfold description, get_xdata; simpl. now rewrite lookup_insert_eq. }
  split; [apply lookup_insert_eq |].
  intros appid Hne. now apply lookup_insert_ne.
Qed.

(** X10: the two properties do not disturb each other: setting the
    description keeps what the transparency reads (a value or an
    exception), and setting the transparency, accepted or rejected, keeps
    the description. *)
Theorem description_and_transparency_are_independent
  (text : string) (v : pyfloat) (b : bound) :
  transparency (self (fst (description_set text b))) = transparency (self b)
  /\
  description (self (fst (transparency_set v b))) = description (self b).
Proof.
  split.
  - rewrite description_set_spec; simpl.
    unfold transparency, get_xdata; simpl.
    rewrite lookup_insert_ne by exact appid_names_differ. reflexivity.
  - rewrite transparency_set_spec.
    destruct (float_le (float_of_Z 0) v && float_le v (float_of_Z 1));
      simpl; [| reflexivity].
    unfold description, get_xdata; simpl.
    rewrite lookup_insert_ne by (intros E; now apply appid_names_differ).
    reflexivity.
Qed.

(** X11: after the transparency was set to a value in [0, 1], reading it
    does not raise: it returns the decoded stored integer when the encoder
    set the flag 0x2000000 in it, and 0.0 when the encoder did not. *)
Theorem transparency_round_trip (v : pyfloat) (b : bound) :
  in_unit_interval v ->
  snd (transparency_set v b) = Ok tt /\
  is_ok (transparency (self (fst (transparency_set v b)))) = true /\
  (Z.land (float2transparency v) 0x2000000 <> 0 ->
   transparency (self (fst (transparency_set v b)))
   = Ok (transparency2float (float2transparency v))) /\
  (Z.land (float2transparency v) 0x2000000 = 0 ->
   transparency (self (fst (transparency_set v b))) = Ok (Finite 0)).
Proof.
  intros Hv. apply in_unit_interval_test in Hv.
  rewrite transparency_set_spec, Hv; simpl.
  split; [reflexivity |].
  unfold transparency, get_xdata; simpl. rewrite lookup_insert_eq; simpl.
  destruct (Z.eqb_spec (Z.land (float2transparency v) 0x2000000) 0)
    as [E | E]; simpl.
  - split; [reflexivity |]. split; [intros Hne; now destruct Hne | easy].
  - split; [reflexivity |]. split; [easy | intros E0; now destruct E].
Qed.

(** X12: the setters keep the application-id table in step with the
    payloads: if every payload of a reserved application-id has its
    application-id registered, this still holds after either setter,
    whether it returns or raises; and the table only grows. *)
Theorem setters_keep_payloads_registered
  (text : string) (v : pyfloat) (b : bound) :
  payloads_registered b ->
  payloads_registered (fst (description_set text b)) /\
  payloads_registered (fst (transparency_set v b)) /\
  (forall ids, doc_appids b = Some ids ->
     exists ids1 ids2,
       doc_appids (fst (description_set text b)) = Some ids1 /\
       doc_appids (fst (transparency_set v b)) = Some ids2 /\
       ids ⊆ ids1 /\ ids ⊆ ids2).
Proof.
  intros Hreg.
  split; [| split].
  - rewrite description_set_spec; simpl.
    intros ids appid Hids Happ Hsome; simpl in *.
    destruct (doc_appids b) as [ids0 |] eqn:E; [| discriminate].
    injection Hids as <-.
    destruct (decide (appid = AcAecLayerStandard)) as [-> | Hne];
      [now apply elem_of_union_l, elem_of_singleton |].
    rewrite lookup_insert_ne in Hsome by congruence.
    apply elem_of_union_r. now apply (Hreg ids0 appid).
  - rewrite transparency_set_spec.
    destruct (float_le (float_of_Z 0) v && float_le v (float_of_Z 1));
      simpl; intros ids appid Hids Happ Hsome; simpl in *;
      destruct (doc_appids b) as [ids0 |] eqn:E; try discriminate;
      injection Hids as <-.
    + destruct (decide (appid = AcCmTransparency)) as [-> | Hne];
        [now apply elem_of_union_l, elem_of_singleton |].
      rewrite lookup_insert_ne in Hsome by congruence.
      apply elem_of_union_r. now apply (Hreg ids0 appid).
    + apply elem_of_union_r. now apply (Hreg ids0 appid).
  - intros ids Hids. rewrite description_set_spec, transparency_set_spec.
    destruct (float_le (float_of_Z 0) v && float_le v (float_of_Z 1));
      simpl; rewrite Hids; simpl; do 2 eexists;
      (split; [reflexivity |]); (split; [reflexivity |]);
      split; apply union_subseteq_r.
Qed.

End XDataProperties.

Lemma half_in_unit_interval : in_unit_interval (Finite (1 # 2)).
Proof. now apply in_unit_interval_test. Defined.

(** Setting the transparency of WALLS to one half and reading it back. *)
Lemma transparency_round_trip_witness :
  in_unit_interval (Finite (1 # 2)) /\
  snd (Layer.transparency_set (H := sample_imports) (Finite (1 # 2))
         (Layer.mkBound walls (Some ∅))) = Ok tt /\
  is_ok (Layer.transparency (H := sample_imports)
           (Layer.self
              (fst (Layer.transparency_set (H := sample_imports)
                      (Finite (1 # 2)) (Layer.mkBound walls (Some ∅))))))
  = true.
Proof.
  destruct (transparency_round_trip (H := sample_imports) (Finite (1 # 2))
              (Layer.mkBound walls (Some ∅)) half_in_unit_interval)
    as (Hset & Hread & _).
  split; [exact half_in_unit_interval |]. split; [exact Hset | exact Hread].
Defined.

Lemma walls_payloads_registered :
  payloads_registered (H := sample_imports) (Layer.mkBound walls (Some ∅)).
Proof.
  intros ids appid _ _ [tags Htags]. simpl in Htags.
  rewrite lookup_empty in Htags. discriminate.
Defined.

(** WALLS holds no payload, so nothing has to be registered; after its
    description is set, the payloads are still registered. *)
Lemma setters_keep_payloads_registered_witness :
  payloads_registered (H := sample_imports)
    (Layer.mkBound walls (Some ∅)) /\
  payloads_registered (H := sample_imports)
    (fst (Layer.description_set (H := sample_imports) "outer walls"
            (Layer.mkBound walls (Some ∅)))).
Proof.
  destruct (setters_keep_payloads_registered (H := sample_imports)
              "outer walls" (Finite 0) (Layer.mkBound walls (Some ∅))
              walls_payloads_registered) as (Hdescription & _ & _).
  split; [exact walls_payloads_registered | exact Hdescription].
Defined.

(** ** The override store in every state *)

Section OverrideStore.
Context `{Imports}.
Variable d : Drawing.
Variable layer : Layer.t.
Import ViewportOverrides.

Lemma alter_present (f : OverrideAttributes.t -> OverrideAttributes.t)
  (ov : gmap string OverrideAttributes.t) (h : string)
  (o : OverrideAttributes.t) :
  ov !! h = Some o -> alter f h ov = <[h := f o]> ov.
Proof.
  intros Ho. apply map_eq. intros i. rewrite lookup_alter.
  case_decide as E.
  - subst i. now rewrite lookup_insert_eq, Ho.
  - now rewrite lookup_insert_ne.
Qed.

(** Acquiring the entry and assigning an attribute, in every state of the
    store. *)
Lemma acquire_assign (f : OverrideAttributes.t -> OverrideAttributes.t)
  (ov : gmap string OverrideAttributes.t) (h : string) :
  bind (_acquire_overrides d layer h) (fun _ => assign h f) ov
  = match default_for d layer h with
    | Raise e => (ov, Raise e)
    | Ok dflt => (<[h := f (default dflt (ov !! h))]> ov, Ok tt)
    end.
Proof.
  unfold bind, _acquire_overrides, assign.
  destruct (default_for d layer h) as [dflt | e]; [| reflexivity].
  destruct (ov !! h) as [o |] eqn:Ho; simpl.
  - now rewrite (alter_present f ov h o Ho).
  - now rewrite alter_insert_eq.
Qed.

(** Every writer: validation first, then the default, then the entry. *)
Lemma run_write_spec (h : string) (c : WriteCall)
  (ov : gmap string OverrideAttributes.t) :
  run_write d layer h c ov
  = if write_accepted d c
    then match default_for d layer h with
         | Raise e => (ov, Raise e)
         | Ok dflt =>
             (<[h := write_update c (default dflt (ov !! h))]> ov, Ok tt)
         end
    else (ov, Raise ValueError).
Proof.
  destruct c as [v | [v |] | v | v | v | |];
    cbn [run_write write_accepted write_update];
    unfold set_color, set_rgb, set_transparency, set_linetype,
      set_lineweight, freeze, thaw;
    try (match goal with
         | |- (if negb ?b then _ else _) _ = _ => destruct b; cbn [negb]
         end);
    try reflexivity; apply acquire_assign.
Qed.

(** X13: a writer that raises, whichever exception, has not changed the
    store: every call either returns or leaves the store as it was. *)
Theorem override_writes_are_atomic (h : string) (c : WriteCall)
  (ov : gmap string OverrideAttributes.t) :
  snd (run_write d layer h c ov) = Ok tt \/
  exists e, run_write d layer h c ov = (ov, Raise e).
Proof.
  rewrite run_write_spec.
  destruct (write_accepted d c); [| right; eauto].
  destruct (default_for d layer h) as [dflt | e]; [now left | right; eauto].
Qed.

(** X14: a writer computes the default entry before it looks for the stored
    one, so when the default settings cannot be computed (the handle leads
    to an entity that is no viewport, or the transparency of the layer
    cannot be read) every writer raises that exception and leaves the store
    unchanged, even for a handle whose entry exists. *)
Theorem override_write_needs_defaults (h : string) (c : WriteCall)
  (ov : gmap string OverrideAttributes.t) (e : exn) :
  default_for d layer h = Raise e ->
  write_accepted d c = true ->
  run_write d layer h c ov = (ov, Raise e).
Proof. intros Hd Hc. now rewrite run_write_spec, Hc, Hd. Qed.

Lemma reads_of_stored_entry (h : string)
  (ov : gmap string OverrideAttributes.t) (o : OverrideAttributes.t) :
  ov !! h = Some o ->
  get_color d layer h ov = (ov, Ok (OverrideAttributes.aci o)) /\
  get_rgb d layer h ov = (ov, Ok (OverrideAttributes.rgb o)) /\
  get_transparency d layer h ov
  = (ov, Ok (OverrideAttributes.transparency o)) /\
  get_linetype d layer h ov = (ov, Ok (OverrideAttributes.linetype o)) /\
  get_lineweight d layer h ov = (ov, Ok (OverrideAttributes.lineweight o)) /\
  is_frozen d layer h ov = (ov, Ok (OverrideAttributes.frozen o)).
Proof.
  intros Ho.
  unfold get_color, get_rgb, get_transparency, get_linetype, get_lineweight,
    is_frozen, bind, _get_overrides.
  rewrite Ho. repeat split.
Qed.

(** X15: once a handle has an entry, every reader returns the stored
    attribute and leaves the store unchanged; it consults neither the layer
    nor the document, so it cannot raise. *)
Theorem materialized_reads_are_stored (h : string)
  (ov : gmap string OverrideAttributes.t) (o : OverrideAttributes.t) :
  ov !! h = Some o ->
  get_color d layer h ov = (ov, Ok (OverrideAttributes.aci o)) /\
  get_rgb d layer h ov = (ov, Ok (OverrideAttributes.rgb o)) /\
  get_transparency d layer h ov
  = (ov, Ok (OverrideAttributes.transparency o)) /\
  get_linetype d layer h ov = (ov, Ok (OverrideAttributes.linetype o)) /\
  get_lineweight d layer h ov = (ov, Ok (OverrideAttributes.lineweight o)) /\
  is_frozen d layer h ov = (ov, Ok (OverrideAttributes.frozen o)).
Proof.
  intros Ho.
  unfold get_color, get_rgb, get_transparency, get_linetype, get_lineweight,
    is_frozen, bind, _get_overrides.
  rewrite Ho. repeat split.
Qed.

(** X16: a writer on a handle that has an entry changes the written
    attribute of that entry and keeps its other attributes, provided the
    default settings can be computed and the argument is valid. *)
Theorem override_write_on_materialized (h : string) (c : WriteCall)
  (ov : gmap string OverrideAttributes.t) (o dflt : OverrideAttributes.t) :
  ov !! h = Some o ->
  default_for d layer h = Ok dflt ->
  write_accepted d c = true ->
  run_write d layer h c ov = (<[h := write_update c o]> ov, Ok tt).
Proof. intros Ho Hd Hc. now rewrite run_write_spec, Hc, Hd, Ho. Qed.

(** X17: a writer never touches the entry of another handle and never
    removes an entry; after a writer has returned, its handle has an entry
    and the store reports overrides. *)
Theorem override_writes_frame (h : string) (c : WriteCall)
  (ov : gmap string OverrideAttributes.t) :
  (forall other, other <> h ->
     fst (run_write d layer h c ov) !! other = ov !! other) /\
  (forall any, is_Some (ov !! any) ->
     is_Some (fst (run_write d layer h c ov) !! any)) /\
  (snd (run_write d layer h c ov) = Ok tt ->
   has_overrides (Some h) (fst (run_write d layer h c ov)) = true /\
   has_overrides None (fst (run_write d layer h c ov)) = true).
Proof.
  rewrite run_write_spec.
  destruct (write_accepted d c);
    [destruct (default_for d layer h) as [dflt | e] |]; simpl;
    try (split; [reflexivity | split; [auto | discriminate]]).
  split; [intros other Hne; now apply lookup_insert_ne |].
  split.
  - intros any Hsome. destruct (decide (any = h)) as [-> | Hne].
    + rewrite lookup_insert_eq. eauto.
    + now rewrite lookup_insert_ne.
  - intros _. split.
    + apply bool_decide_eq_true. rewrite lookup_insert_eq. eauto.
    + apply negb_true_iff, bool_decide_eq_false, insert_non_empty.
Qed.

End OverrideStore.

Section OverrideRoundTrips.
Context `{Imports}.
Variables d d' : Drawing.
Variables layer layer' : Layer.t.
Import ViewportOverrides.

(** After a writer has returned, the entry of its handle exists and
    assigning the same attribute again would not change it. *)
Lemma written_entry (h : string) (c : WriteCall)
  (ov ov' : gmap string OverrideAttributes.t) :
  run_write d layer h c ov = (ov', Ok tt) ->
  exists o, ov' !! h = Some (write_update c o).
Proof.
  rewrite run_write_spec.
  destruct (write_accepted d c); [| discriminate].
  destruct (default_for d layer h) as [dflt | e]; [| discriminate].
  intros [= <-]. rewrite lookup_insert_eq. eauto.
Qed.

(** X18: what a writer has written is what the matching reader returns
    afterwards, whatever the store held before and whatever has become of
    the layer and the document in between ([d'] and [layer'] are those of
    the read): the value set for the colour, the true colour, the
    transparency, the linetype and the lineweight, [True] after [freeze]
    and [False] after [thaw]. *)
Theorem override_write_then_read (h : string)
  (ov ov' : gmap string OverrideAttributes.t) :
  (forall v, set_color d layer h v ov = (ov', Ok tt) ->
             get_color d' layer' h ov' = (ov', Ok v)) /\
  (forall v, set_rgb d layer h v ov = (ov', Ok tt) ->
             get_rgb d' layer' h ov' = (ov', Ok v)) /\
  (forall v, set_transparency d layer h v ov = (ov', Ok tt) ->
             get_transparency d' layer' h ov' = (ov', Ok v)) /\
  (forall v, set_linetype d layer h v ov = (ov', Ok tt) ->
             get_linetype d' layer' h ov' = (ov', Ok v)) /\
  (forall v, set_lineweight d layer h v ov = (ov', Ok tt) ->
             get_lineweight d' layer' h ov' = (ov', Ok v)) /\
  (freeze d layer h ov = (ov', Ok tt) ->
   is_frozen d' layer' h ov' = (ov', Ok true)) /\
  (thaw d layer h ov = (ov', Ok tt) ->
   is_frozen d' layer' h ov' = (ov', Ok false)).
Proof.
  repeat split; intros.
  - destruct (written_entry h (SetColor v) ov ov') as [o Ho]; [assumption |].
    now destruct (reads_of_stored_entry d' layer' h ov' _ Ho)
      as (-> & _).
  - destruct (written_entry h (SetRgb v) ov ov') as [o Ho]; [assumption |].
    now destruct (reads_of_stored_entry d' layer' h ov' _ Ho)
      as (_ & -> & _).
  - destruct (written_entry h (SetTransparency v) ov ov') as [o Ho];
      [assumption |].
    now destruct (reads_of_stored_entry d' layer' h ov' _ Ho)
      as (_ & _ & -> & _).
  - destruct (written_entry h (SetLinetype v) ov ov') as [o Ho];
      [assumption |].
    now destruct (reads_of_stored_entry d' layer' h ov' _ Ho)
      as (_ & _ & _ & -> & _).
  - destruct (written_entry h (SetLineweight v) ov ov') as [o Ho];
      [assumption |].
    now destruct (reads_of_stored_entry d' layer' h ov' _ Ho)
      as (_ & _ & _ & _ & -> & _).
  - destruct (written_entry h Freeze ov ov') as [o Ho]; [assumption |].
    now destruct (reads_of_stored_entry d' layer' h ov' _ Ho)
      as (_ & _ & _ & _ & _ & ->).
  - destruct (written_entry h Thaw ov ov') as [o Ho]; [assumption |].
    now destruct (reads_of_stored_entry d' layer' h ov' _ Ho)
      as (_ & _ & _ & _ & _ & ->).
Qed.

(** X19: the first write for a handle takes a snapshot of the layer: the
    attributes that were not written are those of the layer and of the
    viewport at the time of the write, and later reads return them whatever
    the layer and the document have become ([d'] and [layer'] are those of
    the read). *)
Theorem override_entry_is_a_snapshot (h : string) (c : WriteCall)
  (ov : gmap string OverrideAttributes.t) (t : pyfloat) (fr : bool) :
  ov !! h = None ->
  Layer.transparency layer = Ok t ->
  is_layer_frozen_in_vp d layer h = Ok fr ->
  write_accepted d c = true ->
  let entry :=
    write_update c
      (OverrideAttributes.mk (Layer.get_color layer) (Layer.rgb layer) t
         (Layer.dxf_linetype layer) (Layer.dxf_lineweight layer) fr) in
  let ov' := <[h := entry]> ov in
  run_write d layer h c ov = (ov', Ok tt) /\
  get_color d' layer' h ov' = (ov', Ok (OverrideAttributes.aci entry)) /\
  get_rgb d' layer' h ov' = (ov', Ok (OverrideAttributes.rgb entry)) /\
  get_transparency d' layer' h ov'
  = (ov', Ok (OverrideAttributes.transparency entry)) /\
  get_linetype d' layer' h ov'
  = (ov', Ok (OverrideAttributes.linetype entry)) /\
  get_lineweight d' layer' h ov'
  = (ov', Ok (OverrideAttributes.lineweight entry)) /\
  is_frozen d' layer' h ov' = (ov', Ok (OverrideAttributes.frozen entry)).
Proof.
  intros Hnone Ht Hfr Hc entry ov'.
  split.
  - rewrite run_write_spec, Hc, (default_for_ok d layer h t fr Ht Hfr), Hnone.
    reflexivity.
  - apply reads_of_stored_entry. apply lookup_insert_eq.
Qed.

(** X20: when the colour and the lineweight of the layer are valid, the
    writers keep every entry of the store valid: no writer stores an
    invalid colour index or an invalid lineweight. *)
Theorem override_store_stays_valid (h : string) (c : WriteCall)
  (ov : gmap string OverrideAttributes.t) :
  is_valid_layer_color_index (Layer.dxf_color layer) = true ->
  is_valid_layer_lineweight (Layer.dxf_lineweight layer) = true ->
  store_valid ov ->
  store_valid (fst (run_write d layer h c ov)).
Proof.
  intros Hcolor Hlw Hstore. rewrite run_write_spec.
  destruct (write_accepted d c) eqn:Hc; [| exact Hstore].
  destruct (default_for d layer h) as [dflt | e] eqn:Hd; [| exact Hstore].
  simpl. intros h0 o0 Hlook.
  destruct (decide (h0 = h)) as [-> | Hne];
    [| rewrite lookup_insert_ne in Hlook by congruence;
       now apply (Hstore h0)].
  rewrite lookup_insert_eq in Hlook. injection Hlook as <-.
  assert (Hbase : is_valid_layer_color_index
                    (OverrideAttributes.aci (default dflt (ov !! h))) = true
                  /\ is_valid_layer_lineweight
                       (OverrideAttributes.lineweight
                          (default dflt (ov !! h))) = true).
  { destruct (ov !! h) as [o |] eqn:Ho; simpl; [now apply (Hstore h) |].
    unfold default_for, default_settings in Hd.
    destruct (is_layer_frozen_in_vp d layer h); [| discriminate].
    simpl in Hd. destruct (Layer.transparency layer); [| discriminate].
    injection Hd as <-. simpl. split; [| exact Hlw].
    apply is_valid_layer_color_index_spec.
    apply is_valid_layer_color_index_spec in Hcolor.
    unfold Layer.color, Layer.get_color. lia. }
  destruct Hbase as [Haci Hweight].
  destruct c as [v | v | v | v | v | |]; simpl in *; auto.
Qed.

End OverrideRoundTrips.

Lemma sample_store_20 : sample_store !! "20" = Some sample_entry.
Proof. reflexivity. Defined.

Lemma sample_store_30 : sample_store !! "30" = Some sample_entry.
Proof. reflexivity. Defined.

(** The handle 20 of the sample document is a line, so no default entry can
    be computed for it: freezing WALLS for it raises although the entry
    exists, while reading the entry works. *)
Lemma override_write_needs_defaults_witness :
  ViewportOverrides.default_for (H := sample_imports) sample_doc walls "20"
  = Raise AttributeError /\
  run_write (H := sample_imports) sample_doc walls "20" Freeze sample_store
  = (sample_store, Raise AttributeError).
Proof.
  split; [reflexivity |].
  exact (override_write_needs_defaults (H := sample_imports) sample_doc walls
           "20" Freeze sample_store AttributeError eq_refl eq_refl).
Defined.

Lemma materialized_reads_are_stored_witness :
  sample_store !! "20" = Some sample_entry /\
  ViewportOverrides.get_color (H := sample_imports) sample_doc walls "20"
    sample_store = (sample_store, Ok 3) /\
  ViewportOverrides.is_frozen (H := sample_imports) sample_doc walls "20"
    sample_store = (sample_store, Ok false).
Proof.
  destruct (materialized_reads_are_stored (H := sample_imports) sample_doc
              walls "20" sample_store sample_entry sample_store_20)
    as (Hcolor & _ & _ & _ & _ & Hfrozen).
  split; [exact sample_store_20 |]. split; [exact Hcolor | exact Hfrozen].
Defined.

Lemma sample_default_30 :
  ViewportOverrides.default_for (H := sample_imports) sample_doc walls "30"
  = Ok (OverrideAttributes.mk 5 None (Finite 0) "Continuous" (-3) true).
Proof. reflexivity. Defined.

(** Setting the colour 12 for the handle 30 changes the colour of its entry
    and nothing else of it. *)
Lemma override_write_on_materialized_witness :
  run_write (H := sample_imports) sample_doc walls "30" (SetColor 12)
    sample_store
  = (<["30" := OverrideAttributes.mk 12 None (Finite 0) "Continuous" (-3)
                 false]> sample_store, Ok tt).
Proof.
  exact (override_write_on_materialized (H := sample_imports) sample_doc
           walls "30" (SetColor 12) sample_store sample_entry _
           sample_store_30 sample_default_30 eq_refl).
Defined.

(** Thawing WALLS for the viewport 30 stores the settings of WALLS; read
    later in a document without entities and for a layer of another
    linetype, the entry still gives the linetype of WALLS. *)
Lemma override_entry_is_a_snapshot_witness :
  ViewportOverrides.get_linetype (H := sample_imports)
    (mkDrawing [] ∅ ∅) (Layer.mk "WALLS" 0 1 None "DASHED" 25 ∅) "30"
    (<["30" := OverrideAttributes.mk 5 None (Finite 0) "Continuous" (-3)
                 false]> ∅)
  = (<["30" := OverrideAttributes.mk 5 None (Finite 0) "Continuous" (-3)
                 false]> ∅, Ok "Continuous").
Proof.
  destruct (override_entry_is_a_snapshot (H := sample_imports) sample_doc
              (mkDrawing [] ∅ ∅) walls
              (Layer.mk "WALLS" 0 1 None "DASHED" 25 ∅) "30" Thaw ∅
              (Finite 0) true (no_override_yet "30") walls_transparency
              eq_refl eq_refl) as (_ & _ & _ & _ & Hlinetype & _).
  exact Hlinetype.
Defined.

Lemma empty_store_valid :
  store_valid (H := sample_imports) (∅ : gmap string OverrideAttributes.t).
Proof. intros h o Hlook. rewrite lookup_empty in Hlook. discriminate. Defined.

(** The colour and the lineweight of WALLS are valid, and the empty store
    is: the store after a write is valid. *)
Lemma override_store_stays_valid_witness :
  is_valid_layer_color_index (Layer.dxf_color walls) = true /\
  is_valid_layer_lineweight (H := sample_imports) (Layer.dxf_lineweight walls)
  = true /\
  store_valid (H := sample_imports)
    (fst (run_write (H := sample_imports) sample_doc walls "30" (SetColor 12)
            ∅)).
Proof.
  split; [reflexivity |]. split; [reflexivity |].
  exact (override_store_stays_valid (H := sample_imports) sample_doc walls
           "30" (SetColor 12) ∅ eq_refl eq_refl empty_store_valid).
Defined.

(** ** The document after a rename *)

Section RenameOutcome.
Context `{Imports}.
Import LayerDoc.

(** What a returned [rename] has passed and done. *)
Lemma rename_ok_inv (w w' : World) (self B : string) :
  rename self B w = (w', Ok tt) ->
  exists l db' msgs,
    edb_get self (entitydb (doc w)) = Some (ELayer l) /\
    is_valid_layer_name B = true /\
    lower (Layer.dxf_name l) <> "0" /\
    lower (Layer.dxf_name l) <> "defpoints" /\
    has_entry (layers (doc w)) B = false /\
    rename_references_loop (Layer.dxf_name l) B
      (edb_set self (ELayer (Layer.with_name B l)) (entitydb (doc w)))
    = (db', msgs, Ok tt) /\
    w' = mkWorld
           (mkDrawing db'
              (table_replace (layers (doc w)) (Layer.dxf_name l) B self)
              (linetypes (doc w)))
           (debug_log w ++ msgs).
Proof.
  intros Hok.
  destruct (edb_get self (entitydb (doc w))) as [[l | vp | ty a] |] eqn:Hget;
    try (unfold rename in Hok; rewrite Hget in Hok;
         destruct (negb (is_valid_layer_name B)); discriminate).
  rewrite (rename_guards w self l B Hget) in Hok.
  destruct (is_valid_layer_name B) eqn:Hvalid; [| discriminate].
  simpl in Hok.
  destruct (bool_decide (lower (Layer.dxf_name l) = "0")) eqn:H0;
    [discriminate |].
  destruct (bool_decide (lower (Layer.dxf_name l) = "defpoints")) eqn:Hd;
    [discriminate |].
  destruct (has_entry (layers (doc w)) B) eqn:HB; [discriminate |].
  simpl in Hok. rewrite rename_references_spec in Hok. cbv zeta in Hok.
  simpl in Hok.
  destruct (rename_references_loop (Layer.dxf_name l) B
              (edb_set self (ELayer (Layer.with_name B l))
                 (entitydb (doc w)))) as [[db' msgs] r] eqn:Hloop.
  simpl in Hok. injection Hok as <- ->.
  apply bool_decide_eq_false in H0, Hd.
  exists l, db', msgs. repeat split; auto.
Qed.

Lemma edb_get_edb_set (h self : string) (e' : DXFEntity)
  (db : list (string * DXFEntity)) :
  edb_get h (edb_set self e' db)
  = if bool_decide (h = self)
    then (fun _ => e') <$> edb_get self db
    else edb_get h db.
Proof.
  induction db as [| [h0 e0] rest IH]; simpl; [now case_bool_decide |].
  destruct (decide (h = self)) as [-> | Hne].
  - rewrite (bool_decide_eq_true_2 (self = self)) in * by reflexivity.
    destruct (bool_decide (h0 = self)) eqn:E0; simpl; rewrite E0;
      [reflexivity | exact IH].
  - rewrite (bool_decide_eq_false_2 (h = self)) in * by exact Hne.
    destruct (bool_decide (h0 = self)) eqn:E0; simpl.
    + apply bool_decide_eq_true in E0. subst h0.
      now rewrite (bool_decide_eq_false_2 (self = h)) by congruence.
    + destruct (bool_decide (h0 = h)); [reflexivity | exact IH].
Qed.

(** The loop maps the entity of every handle by the loop body. *)
Lemma edb_get_loop (old new h : string) (db : list (string * DXFEntity)) :
  forall db' msgs,
    rename_references_loop old new db = (db', msgs, Ok tt) ->
    edb_get h db'
    = (fun e => fst (fst (rename_references_in old new e))) <$> edb_get h db.
Proof.
  induction db as [| [h0 e0] rest IH]; intros db' msgs; simpl.
  - intros [= <- _]. reflexivity.
  - destruct (rename_references_in old new e0) as [[e' m1] [[] | x]] eqn:E;
      [| discriminate].
    destruct (rename_references_loop old new rest) as [[rest' m2] r] eqn:El.
    intros [= <- _ ->]. simpl.
    case_bool_decide; [simpl; now rewrite E | now apply (IH _ m2)].
Qed.

Lemma loop_keeps_layers (old new : string) (l : Layer.t) :
  fst (fst (rename_references_in old new (ELayer l))) = ELayer l.
Proof. reflexivity. Qed.

Lemma with_name_twice (a b : string) (l : Layer.t) :
  Layer.with_name a (Layer.with_name b l) = Layer.with_name a l.
Proof. reflexivity. Qed.

Lemma with_name_same (l : Layer.t) :
  Layer.with_name (Layer.dxf_name l) l = l.
Proof. now destruct l. Qed.

(** The layers of the database after a returned rename. *)
Lemma rename_ok_layers (w w' : World) (self B : string) (l : Layer.t) :
  rename self B w = (w', Ok tt) ->
  edb_get self (entitydb (doc w)) = Some (ELayer l) ->
  edb_get self (entitydb (doc w')) = Some (ELayer (Layer.with_name B l)) /\
  (forall h l0, h <> self ->
     edb_get h (entitydb (doc w)) = Some (ELayer l0) ->
     edb_get h (entitydb (doc w')) = Some (ELayer l0)) /\
  layers (doc w')
  = table_replace (layers (doc w)) (Layer.dxf_name l) B self /\
  linetypes (doc w') = linetypes (doc w).
Proof.
  intros Hok Hget.
  destruct (rename_ok_inv w w' self B Hok)
    as (l' & db' & msgs & Hget' & _ & _ & _ & _ & Hloop & ->).
  rewrite Hget in Hget'. injection Hget' as <-. simpl.
  split; [| split; [| split; reflexivity]].
  - rewrite (edb_get_loop _ _ self _ _ _ Hloop), edb_get_edb_set.
    rewrite bool_decide_eq_true_2 by reflexivity. now rewrite Hget.
  - intros h l0 Hne Hl0.
    rewrite (edb_get_loop _ _ h _ _ _ Hloop), edb_get_edb_set.
    rewrite bool_decide_eq_false_2 by exact Hne. now rewrite Hl0.
Qed.

(** X21: for a layer that is registered in the layer table under its name:
    after a rename that returned, the layer bears the new name and nothing
    else of it changed, every other layer of the database is as before, the
    table leads from the key of the new name to the layer, has lost the key
    of the old name, and holds every other key as before. *)
Theorem rename_outcome (w w' : World) (self B : string) (l : Layer.t) :
  rename self B w = (w', Ok tt) ->
  edb_get self (entitydb (doc w)) = Some (ELayer l) ->
  has_entry (layers (doc w)) (Layer.dxf_name l) = true ->
  edb_get self (entitydb (doc w')) = Some (ELayer (Layer.with_name B l)) /\
  (forall h l0, h <> self ->
     edb_get h (entitydb (doc w)) = Some (ELayer l0) ->
     edb_get h (entitydb (doc w')) = Some (ELayer l0)) /\
  layers (doc w') !! key B = Some self /\
  layers (doc w') !! key (Layer.dxf_name l) = None /\
  (forall k, k <> key B -> k <> key (Layer.dxf_name l) ->
     layers (doc w') !! k = layers (doc w) !! k) /\
  linetypes (doc w') = linetypes (doc w).
Proof.
  intros Hok Hget Hregistered.
  destruct (rename_ok_inv w w' self B Hok)
    as (l' & _ & _ & Hget' & _ & _ & _ & HB & _).
  rewrite Hget in Hget'. injection Hget' as <-.
  assert (Hne : key (Layer.dxf_name l) <> key B).
  { intros Heq. unfold has_entry in *. rewrite Heq in Hregistered.
    congruence. }
  destruct (rename_ok_layers w w' self B l Hok Hget)
    as (Hself & Hothers & -> & Hlt).
  unfold table_replace.
  split; [exact Hself |]. split; [exact Hothers |].
  split; [apply lookup_insert_eq |].
  split.
  { rewrite lookup_insert_ne by congruence. apply lookup_delete_eq. }
  split; [| exact Hlt].
  intros k HkB HkA. rewrite lookup_insert_ne by congruence.
  now rewrite lookup_delete_ne by congruence.
Qed.

(** X22: a rename that returns keeps the layer table consistent with the
    layers: if every entry of the table led to a layer whose name has the
    key of the entry, it still does afterwards. *)
Theorem rename_keeps_table_consistent (w w' : World) (self B : string) :
  table_consistent (doc w) ->
  rename self B w = (w', Ok tt) ->
  table_consistent (doc w').
Proof.
  intros Hcons Hok.
  destruct (rename_ok_inv w w' self B Hok) as (l & _ & _ & Hget & _).
  destruct (rename_ok_layers w w' self B l Hok Hget)
    as (Hself & Hothers & Htable & _).
  intros k h Hk. rewrite Htable in Hk. unfold table_replace in Hk.
  destruct (decide (k = key B)) as [-> | HkB].
  - rewrite lookup_insert_eq in Hk. injection Hk as <-.
    exists (Layer.with_name B l). split; [exact Hself | reflexivity].
  - rewrite lookup_insert_ne in Hk by congruence.
    destruct (decide (k = key (Layer.dxf_name l))) as [-> | HkA];
      [rewrite lookup_delete_eq in Hk; discriminate |].
    rewrite lookup_delete_ne in Hk by congruence.
    destruct (Hcons k h Hk) as (l0 & Hl0 & Hkey).
    exists l0. split; [| exact Hkey].
    apply Hothers; [| exact Hl0].
    intros ->. rewrite Hget in Hl0. injection Hl0 as <-. now apply HkA.
Qed.

(** X23: [rename] checks only the current name against the protected
    names, not the new one.  A layer can therefore be renamed to 0 or
    DEFPOINTS (in any case) when the table has no such entry, and after
    that every rename of this layer raises [ValueError] and changes
    nothing. *)
Theorem rename_to_protected_name_is_final
  (w w' : World) (self B name : string) :
  rename self B w = (w', Ok tt) ->
  lower B = "0" \/ lower B = "defpoints" ->
  rename self name w' = (w', Raise ValueError).
Proof.
  intros Hok Hprot.
  destruct (rename_ok_inv w w' self B Hok) as (l & _ & _ & Hget & _).
  destruct (rename_ok_layers w w' self B l Hok Hget) as (Hself & _).
  rewrite (rename_guards w' self _ name Hself). simpl.
  destruct (is_valid_layer_name name); simpl; [| reflexivity].
  destruct Hprot as [-> | ->]; reflexivity.
Qed.

End RenameOutcome.

Section RenameRoundTrip.
Context `{Imports}.
Import LayerDoc.

(** The references after a returned rename. *)
Lemma rename_ok_references (w w' : World) (self B : string) (l : Layer.t) :
  rename self B w = (w', Ok tt) ->
  edb_get self (entitydb (doc w)) = Some (ELayer l) ->
  Forall2 (references_renamed (Layer.dxf_name l) B)
    (entitydb (doc w)) (entitydb (doc w')).
Proof.
  intros Hok Hget.
  destruct (rename_ok_inv w w' self B Hok)
    as (l' & db' & msgs & Hget' & _ & _ & _ & _ & Hloop & ->).
  rewrite Hget in Hget'. injection Hget' as <-. simpl.
  apply rename_references_loop_ok in Hloop.
  eapply Forall2_references_compose; [| exact Hloop].
  now apply edb_set_layer with l.
Qed.

Lemma renamed_twice (a b : string) (attr : option string) :
  renamed_layer_attr b a (renamed_layer_attr a b attr)
  = renamed_there_and_back a b attr.
Proof.
  unfold renamed_layer_attr, renamed_there_and_back.
  destruct attr as [x |]; [| reflexivity].
  destruct (bool_decide (key x = key a)) eqn:Ea; simpl.
  - now rewrite bool_decide_eq_true_2 by reflexivity.
  - now destruct (bool_decide (key x = key b)).
Qed.

Lemma references_there_and_back (a b : string)
  (db db1 db2 : list (string * DXFEntity)) :
  Forall2 (references_renamed a b) db db1 ->
  Forall2 (references_renamed b a) db1 db2 ->
  Forall2 (fun p q => fst q = fst p /\
                      dxf_layer (snd q)
                      = renamed_there_and_back a b (dxf_layer (snd p)))
    db db2.
Proof.
  intros H1. revert db2.
  induction H1 as [| p q ps qs Hpq _ IH]; intros db2 H2.
  - inversion H2. constructor.
  - inversion H2 as [| q' r qs' rs Hqr Hrest]; subst.
    constructor; [| now apply IH].
    destruct Hpq as [Hh Hl]. destruct Hqr as [Hh' Hl'].
    split; [congruence |]. now rewrite Hl', Hl, renamed_twice.
Qed.

(** X24: renaming a layer and renaming it back.  If the layer is in the
    table under its name and both renames return, the layer and the layer
    table are exactly as before.  The references are not: every [layer]
    attribute that equalled the name of the layer up to case now has its
    exact spelling, and so has every attribute that referred to the
    intermediate name; all other attributes are as before. *)
Theorem rename_there_and_back (w w1 w2 : World) (self B : string)
  (l : Layer.t) :
  edb_get self (entitydb (doc w)) = Some (ELayer l) ->
  layers (doc w) !! key (Layer.dxf_name l) = Some self ->
  rename self B w = (w1, Ok tt) ->
  rename self (Layer.dxf_name l) w1 = (w2, Ok tt) ->
  edb_get self (entitydb (doc w2)) = Some (ELayer l) /\
  layers (doc w2) = layers (doc w) /\
  Forall2 (fun p q => fst q = fst p /\
                      dxf_layer (snd q)
                      = renamed_there_and_back (Layer.dxf_name l) B
                          (dxf_layer (snd p)))
    (entitydb (doc w)) (entitydb (doc w2)).
Proof.
  intros Hget Htable Hfirst Hsecond.
  destruct (rename_ok_inv w w1 self B Hfirst)
    as (l' & _ & _ & Hget' & _ & _ & _ & HB & _).
  clear l' Hget'.
  destruct (rename_ok_layers w w1 self B l Hfirst Hget)
    as (Hself1 & _ & Htable1 & _).
  destruct (rename_ok_layers w1 w2 self _ _ Hsecond Hself1)
    as (Hself2 & _ & Htable2 & _).
  split; [| split].
  - rewrite Hself2, with_name_twice, with_name_same. reflexivity.
  - rewrite Htable2, Htable1. simpl. unfold table_replace.
    assert (HnoB : layers (doc w) !! key B = None).
    { unfold has_entry in HB. apply bool_decide_eq_false in HB.
      destruct (layers (doc w) !! key B); [exfalso; eauto | reflexivity]. }
    assert (Hne : key (Layer.dxf_name l) <> key B) by congruence.
    rewrite delete_insert_eq.
    rewrite (delete_id (delete (key (Layer.dxf_name l)) (layers (doc w))))
      by (now rewrite lookup_delete_ne by exact Hne).
    rewrite insert_delete_eq. now apply insert_id.
  - eapply references_there_and_back.
    + exact (rename_ok_references w w1 self B l Hfirst Hget).
    + exact (rename_ok_references w1 w2 self _ _ Hsecond Hself1).
Qed.

End RenameRoundTrip.

Lemma sample_rename_returns :
  LayerDoc.rename (H := sample_imports) "11" "WALL" sample_world = (sample_renamed, Ok tt).
Proof. reflexivity. Defined.

Lemma sample_walls_found :
  edb_get "11" (entitydb (doc sample_world)) = Some (ELayer walls).
Proof. reflexivity. Defined.

(** WALLS renamed to WALL in the sample document. *)
Lemma rename_outcome_witness :
  edb_get "11" (entitydb (doc sample_renamed))
  = Some (ELayer (Layer.with_name "WALL" walls)) /\
  layers (doc sample_renamed) !! "wall" = Some "11" /\
  layers (doc sample_renamed) !! "walls" = None.
Proof.
  destruct (rename_outcome (H := sample_imports) sample_world
              sample_renamed "11" "WALL" walls
              sample_rename_returns sample_walls_found eq_refl)
    as (Hself & _ & Hnew & Hold & _).
  split; [exact Hself |]. split; [exact Hnew | exact Hold].
Defined.

Lemma sample_table_consistent :
  table_consistent (H := sample_imports) (doc sample_world).
Proof.
  intros k h Hk. simpl in Hk.
  apply lookup_insert_Some in Hk as [[<- <-] | [_ Hk]];
    [eexists; split; reflexivity |].
  apply lookup_insert_Some in Hk as [[<- <-] | [_ Hk]];
    [eexists; split; reflexivity |].
  rewrite lookup_empty in Hk. discriminate.
Defined.

Lemma rename_keeps_table_consistent_witness :
  table_consistent (H := sample_imports) (doc sample_world) /\
  table_consistent (H := sample_imports) (doc sample_renamed).
Proof.
  split; [exact sample_table_consistent |].
  exact (rename_keeps_table_consistent (H := sample_imports) sample_world
           sample_renamed "11"
           "WALL" sample_table_consistent sample_rename_returns).
Defined.

Lemma sample_rename_to_defpoints :
  LayerDoc.rename (H := sample_imports) "11" "Defpoints" sample_world
  = (sample_defpoints, Ok tt).
Proof. reflexivity. Defined.

(** WALLS can be renamed to Defpoints, and then not be renamed again. *)
Lemma rename_to_protected_name_is_final_witness :
  LayerDoc.rename (H := sample_imports) "11" "Defpoints" sample_world
  = (sample_defpoints, Ok tt) /\
  LayerDoc.rename (H := sample_imports) "11" "WALLS" sample_defpoints
  = (sample_defpoints, Raise ValueError).
Proof.
  split; [exact sample_rename_to_defpoints |].
  exact (rename_to_protected_name_is_final (H := sample_imports)
           sample_world sample_defpoints
           "11" "Defpoints" "WALLS" sample_rename_to_defpoints
           (or_intror eq_refl)).
Defined.

Lemma sample_rename_back :
  LayerDoc.rename (H := sample_imports) "11" "WALLS" sample_renamed
  = (fst (LayerDoc.rename (H := sample_imports) "11" "WALLS" sample_renamed), Ok tt).
Proof. reflexivity. Defined.

(** WALLS renamed to WALL and back: the layer and the table are as before,
    and the line that referred to walls now refers to WALLS. *)
Lemma rename_there_and_back_witness :
  edb_get "11"
    (entitydb (doc (fst (LayerDoc.rename (H := sample_imports) "11" "WALLS" sample_renamed))))
  = Some (ELayer walls) /\
  layers (doc (fst (LayerDoc.rename (H := sample_imports) "11" "WALLS" sample_renamed)))
  = layers (doc sample_world) /\
  edb_get "20"
    (entitydb (doc (fst (LayerDoc.rename (H := sample_imports) "11" "WALLS" sample_renamed))))
  = Some (EOther "LINE" (Some "WALLS")).
Proof.
  destruct (rename_there_and_back (H := sample_imports) sample_world
              sample_renamed
              (fst (LayerDoc.rename (H := sample_imports) "11" "WALLS" sample_renamed))
              "11" "WALL" walls sample_walls_found eq_refl
              sample_rename_returns sample_rename_back)
    as (Hself & Htable & _).
  split; [exact Hself |]. split; [exact Htable | reflexivity].
Defined.
